(** * Feed validation pipeline of Planet Python: a shallow embedding

    The three scripts under [.github/scripts] are embedded function by
    function:
    - [validate_feed.py]  (module [ValidateFeed]),
    - [format_comment.py] (module [FormatComment]),
    - [get_labels.py]     (module [GetLabels]).

    Conventions of the embedding.
    - A Python [str] is a [string]: a sequence of bytes holding the UTF-8
      text.  Slicing counts code points, as Python does.  [lower], [upper]
      and [strip] act as Python does on ASCII text; they carry text outside
      ASCII along unchanged, where Python also maps the letters and strips
      the whitespace of the rest of Unicode.
    - A Python [int] is a [Z]; a Python [float] is a primitive binary64
      [float], the same IEEE 754 format CPython uses.
    - A [dict] with string keys is a [gmap string _]; a dict used as a
      record of optional fields (one validation result, the result
      document) is a record of [option]s, [None] standing for an absent
      key (and for a JSON [null], which every reader here treats alike).
    - Calls into libraries ([urlparse], [requests], [feedparser],
      [configparser], [argparse], [json], the file system) are the fields
      of an explicit [World]: each returns the outcome the library call
      can have, exceptions included. *)

From Stdlib Require Import ZArith String Ascii Bool List Lia DecimalString.
From Stdlib Require Import PrimFloat FloatOps SpecFloat Uint63.
From stdpp Require Import base option strings gmap list.

Open Scope string_scope.
Open Scope Z_scope.
Open Scope list_scope.

(** ** Python string operations *)

Module PyStr.

Definition nl : string := String "010"%char EmptyString.
Definition dquote : string := String "034"%char EmptyString.

Definition is_upper (c : ascii) : bool :=
  let n := nat_of_ascii c in (65 <=? n)%nat && (n <=? 90)%nat.

Definition is_lower (c : ascii) : bool :=
  let n := nat_of_ascii c in (97 <=? n)%nat && (n <=? 122)%nat.

Definition lower_char (c : ascii) : ascii :=
  if is_upper c then ascii_of_nat (nat_of_ascii c + 32) else c.

Definition upper_char (c : ascii) : ascii :=
  if is_lower c then ascii_of_nat (nat_of_ascii c - 32) else c.

(** [s.lower()] and [s.upper()]. *)
Fixpoint lower (s : string) : string :=
  match s with
  | EmptyString => EmptyString
  | String c s' => String (lower_char c) (lower s')
  end.

Fixpoint upper (s : string) : string :=
  match s with
  | EmptyString => EmptyString
  | String c s' => String (upper_char c) (upper s')
  end.

(** [c.isspace()] on the ASCII range: tab, line feed, vertical tab, form
    feed, carriage return, the four separators 0x1c-0x1f and the space. *)
Definition is_space (c : ascii) : bool :=
  let n := nat_of_ascii c in
  ((9 <=? n)%nat && (n <=? 13)%nat) || ((28 <=? n)%nat && (n <=? 32)%nat).

Fixpoint lstrip (s : string) : string :=
  match s with
  | EmptyString => EmptyString
  | String c s' => if is_space c then lstrip s' else s
  end.

Fixpoint rstrip (s : string) : string :=
  match s with
  | EmptyString => EmptyString
  | String c s' =>
      match rstrip s' with
      | EmptyString => if is_space c then EmptyString else String c EmptyString
      | r => String c r
      end
  end.

(** [s.strip()]. *)
Definition strip (s : string) : string := rstrip (lstrip s).

(** [s.startswith(p)]. *)
Fixpoint startswith (p s : string) : bool :=
  match p, s with
  | EmptyString, _ => true
  | String a p', String b s' => Ascii.eqb a b && startswith p' s'
  | String _ _, EmptyString => false
  end.

(** [s.endswith(c)] for a one-character suffix. *)
Fixpoint endswith_char (c : ascii) (s : string) : bool :=
  match s with
  | EmptyString => false
  | String a EmptyString => Ascii.eqb a c
  | String _ s' => endswith_char c s'
  end.

(** [s[:-1]]. *)
Fixpoint drop_last (s : string) : string :=
  match s with
  | EmptyString => EmptyString
  | String _ EmptyString => EmptyString
  | String a s' => String a (drop_last s')
  end.

(** [sub in s]. *)
Fixpoint contains (sub s : string) : bool :=
  startswith sub s ||
  match s with
  | EmptyString => false
  | String _ s' => contains sub s'
  end.

(** A byte that continues a code point of UTF-8 text (10xxxxxx). *)
Definition is_continuation (c : ascii) : bool :=
  let n := nat_of_ascii c in (128 <=? n)%nat && (n <? 192)%nat.

(** [len(s)]: the number of code points of the text. *)
Fixpoint code_points (s : string) : nat :=
  match s with
  | EmptyString => O
  | String c s' =>
      if is_continuation c then code_points s' else S (code_points s')
  end.

(** [s[:n]] for [n >= 0]: the first [n] code points of the text, each
    with all its bytes. *)
Fixpoint take (n : nat) (s : string) {struct s} : string :=
  match s with
  | EmptyString => EmptyString
  | String c s' =>
      if is_continuation c then String c (take n s')
      else match n with
           | O => EmptyString
           | S n' => String c (take n' s')
           end
  end.

(** Truthiness of a string: [bool(s)]. *)
Definition truthy (s : string) : bool :=
  match s with EmptyString => false | _ => true end.

(** [str(n)] for an integer. *)
Definition of_Z (z : Z) : string := NilZero.string_of_int (Z.to_int z).

(** [sep.join(l)]. *)
Definition join (sep : string) (l : list string) : string := String.concat sep l.

(** The pieces of [s] between the occurrences of a non-empty separator,
    scanning from the left: [s.split(sep)], and [re.split] for a pattern
    that is a literal without groups.  [cur] holds, reversed, the bytes
    of the piece being read. *)
Fixpoint split_go (sep : string) (skip : nat) (cur : string) (s : string)
  : list string :=
  match s with
  | EmptyString => [String.rev cur]
  | String c s' =>
      match skip with
      | S k => split_go sep k cur s'
      | O =>
          if startswith sep s
          then String.rev cur :: split_go sep (String.length sep - 1) EmptyString s'
          else split_go sep O (String c cur) s'
      end
  end.

Definition split (sep s : string) : list string :=
  split_go sep O EmptyString s.

(** [s.split(sep, 1)] for a one-character separator: at most two pieces. *)
Fixpoint split_once (c : ascii) (s : string) : list string :=
  match s with
  | EmptyString => [EmptyString]
  | String a s' =>
      if Ascii.eqb a c then [EmptyString; s']
      else match split_once c s' with
           | h :: t => String a h :: t
           | [] => [String a EmptyString]
           end
  end.

End PyStr.

(** ** Python numbers *)

Module PyNum.

(** An exception that escapes to a [try] block, with its [str(e)]. *)
Inductive pyexn :=
| ZeroDivisionError
| OverflowError
| ValueError
| LibraryError (msg : string).

Definition str_exn (e : pyexn) : string :=
  match e with
  | ZeroDivisionError => "division by zero"
  | OverflowError => "cannot convert float infinity to integer"
  | ValueError => "cannot convert float NaN to integer"
  | LibraryError msg => msg
  end.

(** The float nearest to a count (exact below 2^53). *)
Definition float_of_nat (n : nat) : float :=
  PrimFloat.of_uint63 (Uint63.of_Z (Z.of_nat n)).

(** [a / b] on two non-negative ints: true division, which raises on a
    zero divisor and is otherwise the correctly rounded quotient. *)
Definition truediv (a b : nat) : pyexn + float :=
  match b with
  | O => inl ZeroDivisionError
  | S _ => inr (PrimFloat.div (float_of_nat a) (float_of_nat b))
  end.

(** [int(x)] on a float: truncation toward zero. *)
Definition int_of_float (x : float) : pyexn + Z :=
  match Prim2SF x with
  | S754_zero _ => inr 0
  | S754_finite s m e =>
      let a := if (0 <=? e)%Z then Z.shiftl (Zpos m) e else Z.shiftr (Zpos m) (- e) in
      inr (if s then - a else a)
  | S754_infinity _ => inl OverflowError
  | S754_nan => inl ValueError
  end.

End PyNum.

(** ** The result document

    One validation result is the dict stored under a check's name; the
    result document is the dict [validate_feed.py] writes as JSON and the
    two other scripts read back. *)

Record Validation := {
  passed : option bool;
  message : option string;
  status_code : option Z;
  final_url : option string;
  feed_type : option string;
  entries : option Z;
  is_duplicate : option bool;
  existing_name : option string;
  python_score : option Z;
  language : option string;
  sample_titles : option (list string);
  warnings : option (list string)
}.

(** The empty dict [{}]. *)
Definition empty_validation : Validation :=
  {| passed := None; message := None; status_code := None; final_url := None;
     feed_type := None; entries := None; is_duplicate := None;
     existing_name := None; python_score := None; language := None;
     sample_titles := None; warnings := None |}.

Record Result := {
  success : option bool;
  feed_url : option string;
  feed_name : option string;
  request_type : option string;
  validations : option (gmap string Validation);
  overall_status : option string;
  labels : option (list string);
  recommendations : option (list string)
}.

(** [d.get(check, {}).get(field, dflt)] on a dict of validation results. *)
Definition get_field {A} (d : gmap string Validation) (check : string)
    (field : Validation -> option A) (dflt : A) : A :=
  default dflt (field (default empty_validation (d !! check))).

(** What [argparse]'s [parse_args] can do: hand back the parsed arguments,
    or report an error (a missing required argument, an unknown option),
    in which case the library prints the usage and terminates the process
    itself, with status 2. *)
Inductive Argparse (A : Type) :=
| ArgsParsed (args : A)
| ArgsError.
Arguments ArgsParsed {A} args.
Arguments ArgsError {A}.

Definition argparse_error_status : Z := 2.

(** How writing a file can end. *)
Inductive WriteOutcome :=
| Written
| WriteFileNotFound
| WriteRaised (msg : string).

(** What a script leaves behind: its exit status and what it wrote (into
    its output file, or on standard output for [get_labels.py]). *)
Record Run (A : Type) := {
  exit_code : Z;
  written : option A
}.
Arguments exit_code {A} r.
Arguments written {A} r.

(** ** validate_feed.py *)

Module ValidateFeed.
Import PyStr PyNum.

(** *** The libraries the script calls *)

(** [urlparse(url)]: the scheme and the network location, or an
    exception. *)
Inductive UrlParse :=
| UrlParsed (scheme netloc : string)
| UrlRaised (msg : string).

(** [requests.get(url, ...)]: a response with its status code and final
    URL, or one of the exceptions the script tells apart. *)
Inductive HttpOutcome :=
| Responded (code : Z) (url : string)
| Timeout
| ConnectionError
| TooManyRedirects
| RequestRaised (msg : string).

(** One entry of a parsed feed; an attribute the entry lacks is [None]. *)
Record Entry := {
  entry_title : option string;
  entry_summary : option string
}.

(** The object [feedparser.parse] returns.  [feed_meta] is the [feed]
    attribute, holding the feed-level [language] when there is one. *)
Record Feed := {
  bozo : bool;
  bozo_exception : option string;
  version : option string;
  feed_entries : option (list Entry);
  feed_meta : option (option string)
}.

Inductive FeedParse :=
| FeedParsed (feed : Feed)
| FeedRaised (msg : string).

(** What [config.get(section, 'name', fallback='Unknown')] does on one
    section: it returns the value of the option, returns the fallback when
    the section has no such option, or raises (the value does not
    interpolate: a lone [%], a reference to a missing option). *)
Inductive NameLookup :=
| NameValue (name : string)
| NameFallback
| NameRaised (msg : string).

(** One section of the registry file: its name (the feed URL) and what
    looking up its [name] option does. *)
Definition ConfigSection : Type := string * NameLookup.

(** [config.read(path)] and [config.sections()]: the sections in file
    order, or the exception raised on the way. *)
Inductive ConfigRead :=
| ConfigSections (sections : list ConfigSection)
| ConfigFileNotFound
| ConfigRaised (msg : string).

Record World := {
  urlparse : string -> UrlParse;
  requests_get : string -> Z -> HttpOutcome;
  (** the [k]-th call of [feedparser.parse] in the run, from 0 *)
  feedparser_parse : nat -> string -> FeedParse;
  config_read : string -> ConfigRead;
  (** [json.dump] of the result into the file at the given path *)
  write_json : string -> Result -> WriteOutcome
}.

(** *** parse_issue_body *)

Definition field_of_header (header_lower : string) : option string :=
  if contains "feed url" header_lower && negb (contains "old" header_lower)
  then Some "feed-url"
  else if contains "name" header_lower || contains "blog name" header_lower
  then Some "name"
  else if contains "request type" header_lower
  then Some "request-type"
  else if contains "old" header_lower && contains "url" header_lower
  then Some "old-url"
  else None.

(** One turn of the loop over the sections. *)
Definition parse_section (data : gmap string string) (section : string)
  : gmap string string :=
  if negb (truthy (strip section)) then data
  else
    match split_once "010"%char (strip section) with
    | header0 :: value0 :: _ =>
        let header := strip header0 in
        let value := strip value0 in
        if String.eqb value "_No response_" || String.eqb value EmptyString
        then data
        else
          match field_of_header (lower header) with
          | Some field => <[field := value]> data
          | None => data
          end
    | _ => data
    end.

Definition parse_issue_body (issue_body : string) : gmap string string :=
  fold_left parse_section (split (nl +:+ "### ") issue_body) ∅.

(** *** validate_url_format *)

Definition validate_url_format (w : World) (url : string) : bool * string :=
  match urlparse w url with
  | UrlParsed scheme netloc =>
      if negb (truthy scheme)
      then (false, "URL missing scheme (http:// or https://)")
      else if negb (String.eqb scheme "http" || String.eqb scheme "https")
      then (false, "Invalid scheme '" +:+ scheme +:+ "' (must be http or https)")
      else if negb (truthy netloc)
      then (false, "URL missing domain/hostname")
      else (true, "Valid URL format")
  | UrlRaised msg => (false, "URL parsing error: " +:+ msg)
  end.

(** *** check_feed_accessibility *)

Definition check_feed_accessibility (w : World) (url : string) (timeout : Z)
  : bool * Z * option string * string :=
  match requests_get w url timeout with
  | Responded code response_url =>
      let final_url := if String.eqb response_url url then None else Some response_url in
      if (code =? 200)%Z
      then
        let redirect_msg :=
          match final_url with
          | Some u => if truthy u then " (redirected to " +:+ u +:+ ")" else EmptyString
          | None => EmptyString
          end in
        (true, code, final_url, "Feed accessible" +:+ redirect_msg)
      else (false, code, None, "HTTP " +:+ of_Z code)
  | Timeout =>
      (false, 0, None, "Request timed out after " +:+ of_Z timeout +:+ " seconds")
  | ConnectionError => (false, 0, None, "Unable to connect to feed URL")
  | TooManyRedirects => (false, 0, None, "Too many redirects")
  | RequestRaised msg => (false, 0, None, "Error: " +:+ msg)
  end.

(** *** validate_feed_structure *)

Definition feed_type_name (version : string) : string :=
  if String.eqb version "rss10" then "RSS 1.0"
  else if String.eqb version "rss20" then "RSS 2.0"
  else if String.eqb version "rss" then "RSS"
  else if String.eqb version "atom" then "Atom"
  else if String.eqb version "atom10" then "Atom 1.0"
  else if String.eqb version "atom03" then "Atom 0.3"
  else version.

Definition validate_feed_structure (w : World) (call : nat) (url : string)
  : bool * option string * Z * string :=
  match feedparser_parse w call url with
  | FeedParsed feed =>
      if bozo feed
      then
        let error_msg := default "Unknown parsing error" (bozo_exception feed) in
        (false, None, 0, "Feed parsing error: " +:+ error_msg)
      else
        match version feed with
        | None => (false, None, 0, "Unable to detect feed format (not RSS or Atom)")
        | Some v =>
            if negb (truthy v)
            then (false, None, 0, "Unable to detect feed format (not RSS or Atom)")
            else
              let entry_count :=
                match feed_entries feed with
                | Some es => Z.of_nat (List.length es)
                | None => 0
                end in
              if (entry_count =? 0)%Z
              then (false, Some v, 0, "Feed has no entries")
              else (true, Some v, entry_count,
                    "Valid " +:+ feed_type_name v +:+ " feed")
        end
  | FeedRaised msg => (false, None, 0, "Error parsing feed: " +:+ msg)
  end.

(** *** normalize_url *)

Definition normalize_url (url : string) : string :=
  let url := strip (lower url) in
  if endswith_char "/" url then drop_last url else url.

(** *** check_duplicate_in_config *)

(** [request_type and 'edit' in request_type.lower()]. *)
Definition is_edit (request_type : string) : bool :=
  truthy request_type && contains "edit" (lower request_type).

(** [config.get(section, 'name', fallback='Unknown')]. *)
Definition config_get_name (lookup : NameLookup) : pyexn + string :=
  match lookup with
  | NameValue name => inr name
  | NameFallback => inr "Unknown"
  | NameRaised msg => inl (LibraryError msg)
  end.

(** The first loop, up to the lookup of the name: the first section, the
    reserved one aside, whose normalized name is [normalized_new]. *)
Fixpoint find_duplicate (normalized_new : string) (sections : list ConfigSection)
  : option NameLookup :=
  match sections with
  | [] => None
  | (section, lookup) :: rest =>
      if String.eqb section "Planet" then find_duplicate normalized_new rest
      else if String.eqb (normalize_url section) normalized_new
      then Some lookup
      else find_duplicate normalized_new rest
  end.

(** The second loop: [old_found]. *)
Fixpoint old_found (normalized_old : string) (sections : list ConfigSection) : bool :=
  match sections with
  | [] => false
  | (section, _) :: rest =>
      if String.eqb section "Planet" then old_found normalized_old rest
      else if String.eqb (normalize_url section) normalized_old then true
      else old_found normalized_old rest
  end.

Definition check_duplicate_in_config (w : World) (url config_path request_type : string)
    (old_url : option string) : bool * bool * option string * string :=
  match config_read w config_path with
  | ConfigSections sections =>
      let normalized_new := normalize_url url in
      match find_duplicate normalized_new sections with
      | Some lookup =>
          match config_get_name lookup with
          | inr name =>
              if is_edit request_type
              then (true, true, Some name,
                    "Feed exists as '" +:+ name +:+ "' (OK for edit)")
              else (false, true, Some name,
                    "Feed already exists as '" +:+ name +:+ "'")
          | inl e => (false, false, None, "Error reading config: " +:+ str_exn e)
          end
      | None =>
          match old_url with
          | Some old =>
              if is_edit request_type && truthy old
                 && negb (old_found (normalize_url old) sections)
              then (false, false, None,
                    "Old feed URL '" +:+ old +:+ "' not found in config")
              else (true, false, None, "No duplicate found")
          | None => (true, false, None, "No duplicate found")
          end
      end
  | ConfigFileNotFound =>
      (false, false, None, "Config file not found: " +:+ config_path)
  | ConfigRaised msg => (false, false, None, "Error reading config: " +:+ msg)
  end.

(** *** analyze_feed_content *)

Definition python_keywords : list string :=
  ["python"; "django"; "flask"; "fastapi"; "pytest"; "pip";
   "pandas"; "numpy"; "asyncio"; "pypi"; "virtualenv"; "conda";
   "jupyter"; "matplotlib"; "scikit"; "tensorflow"; "pytorch"].

(** [l[:k]] for any int [k]: a negative [k] counts from the end. *)
Definition slice_to {A} (k : Z) (l : list A) : list A :=
  if (0 <=? k)%Z then firstn (Z.to_nat k) l
  else firstn (Z.to_nat (Z.of_nat (List.length l) + k)) l.

(** [has_python] for one entry. *)
Definition has_python (entry : Entry) : bool :=
  let title := default EmptyString (entry_title entry) in
  let summary := default EmptyString (entry_summary entry) in
  let content := lower (title +:+ " " +:+ summary) in
  existsb (fun keyword => contains keyword content) python_keywords.

(** One turn of the loop over the sampled entries, on the two variables
    it updates. *)
Definition analyze_entry (st : nat * list string) (entry : Entry)
  : nat * list string :=
  let '(python_count, sample_titles) := st in
  let title := default EmptyString (entry_title entry) in
  let python_count := if has_python entry then S python_count else python_count in
  let sample_titles :=
    if truthy title && (List.length sample_titles <? 5)%nat
    then sample_titles ++ [take 100 title]
    else sample_titles in
  (python_count, sample_titles).

Definition bind {A B} (m : pyexn + A) (k : A -> pyexn + B) : pyexn + B :=
  match m with
  | inl e => inl e
  | inr a => k a
  end.

(** [int((python_count / n) * 100)], with the exceptions the division
    and the conversion can raise. *)
Definition percentage (python_count n : nat) : pyexn + Z :=
  bind (truediv python_count n) (fun ratio =>
  int_of_float (PrimFloat.mul ratio (float_of_nat 100))).

Definition low_warning : string :=
  "Low Python content detected - feed may not be Python-specific".
Definition moderate_warning : string :=
  "Consider filtering your feed by Python tag/category for better relevance".

(** The body of the [try] block. *)
Definition analyze_feed_content_try (w : World) (call : nat) (url : string)
    (sample_size : Z) : pyexn + (Z * option string * list string * list string) :=
  match feedparser_parse w call url with
  | FeedRaised msg => inl (LibraryError msg)
  | FeedParsed feed =>
      match bozo feed, feed_entries feed with
      | false, Some all_entries =>
          let language :=
            match feed_meta feed with
            | Some meta => meta
            | None => None
            end in
          let entries := slice_to sample_size all_entries in
          match entries with
          | [] => inr (0, language, [], ["Feed has no entries to analyze"])
          | _ :: _ =>
              let '(python_count, sample_titles) :=
                fold_left analyze_entry entries (O, []) in
              bind (percentage python_count (List.length entries)) (fun python_score =>
              let warnings :=
                if (python_score <? 30)%Z then [low_warning]
                else if (python_score <? 60)%Z then [moderate_warning]
                else [] in
              inr (python_score, language, sample_titles, warnings))
          end
      | _, _ => inr (0, None, [], ["Unable to parse feed for content analysis"])
      end
  end.

Definition analyze_feed_content (w : World) (call : nat) (url : string)
    (sample_size : Z) : Z * option string * list string * list string :=
  match analyze_feed_content_try w call url sample_size with
  | inr r => r
  | inl e => (0, None, [], ["Error analyzing content: " +:+ str_exn e])
  end.

(** *** determine_overall_status *)

Definition critical_checks : list string :=
  ["url_format"; "accessibility"; "structure"].

Definition has_critical_failure (validations : gmap string Validation) : bool :=
  existsb (fun check => negb (get_field validations check passed false))
          critical_checks.

Definition determine_overall_status (validations : gmap string Validation)
  : string * list string * list string :=
  if has_critical_failure validations
  then ("fail", ["validation-failed"],
        ["Please fix the critical errors above before resubmitting"])
  else
    let is_dup := get_field validations "duplicate" is_duplicate false in
    let labels := if is_dup then ["duplicate-feed"] else [] in
    let recommendations :=
      if is_dup
      then ["This feed appears to already exist - please verify this is an edit request"]
      else [] in
    let score := get_field validations "content" python_score 0 in
    if (score <? 30)%Z
    then ("warning", labels ++ ["validation-warning"],
          recommendations ++
          ["Feed appears to have low Python-specific content";
           "Consider providing a filtered feed URL (by tag/category)"])
    else if (score <? 60)%Z
    then ("warning", labels ++ ["validation-warning"],
          recommendations ++
          ["Feed has moderate Python content - consider filtering by Python tag/category"])
    else
      ("pass",
       match labels with [] => ["validation-passed"] | _ => labels end,
       recommendations).

(** *** main *)

Record Args := {
  issue_body : string;
  config_path : string;
  output : string
}.

(** The dicts recorded for a check that is not run. *)
Definition skipped_accessibility : Validation :=
  {| passed := Some false; message := Some "Skipped (invalid URL format)";
     status_code := Some 0; final_url := None; feed_type := None;
     entries := None; is_duplicate := None; existing_name := None;
     python_score := None; language := None; sample_titles := None;
     warnings := None |}.

Definition skipped_structure : Validation :=
  {| passed := Some false; message := Some "Skipped (feed not accessible)";
     status_code := None; final_url := None; feed_type := None;
     entries := None; is_duplicate := None; existing_name := None;
     python_score := None; language := None; sample_titles := None;
     warnings := None |}.

Definition skipped_content : Validation :=
  {| passed := None; message := None; status_code := None;
     final_url := None; feed_type := None; entries := None;
     is_duplicate := None; existing_name := None;
     python_score := Some 0; language := None; sample_titles := None;
     warnings := Some ["Skipped (feed structure invalid)"] |}.

(** The dict recorded under [parsing] when no feed URL was found. *)
Definition parsing_failed : Validation :=
  {| passed := Some false;
     message := Some "Unable to extract feed URL from issue body";
     status_code := None; final_url := None; feed_type := None;
     entries := None; is_duplicate := None; existing_name := None;
     python_score := None; language := None; sample_titles := None;
     warnings := None |}.

(** A dict holding the given fields and no other. *)
Definition check_entry (p : bool) (msg : string) : Validation :=
  {| passed := Some p; message := Some msg;
     status_code := None; final_url := None; feed_type := None;
     entries := None; is_duplicate := None; existing_name := None;
     python_score := None; language := None; sample_titles := None;
     warnings := None |}.

(** 1. URL format. *)
Definition url_format_entry (w : World) (feed_url : string) : Validation :=
  let '(url_valid, url_msg) := validate_url_format w feed_url in
  check_entry url_valid url_msg.

(** 2. Accessibility (only if the URL format is valid). *)
Definition accessibility_entry (w : World) (feed_url : string) (url_valid : bool)
  : Validation :=
  if url_valid
  then
    let '(accessible, code, final, access_msg) :=
      check_feed_accessibility w feed_url 10 in
    {| passed := Some accessible; message := Some access_msg;
       status_code := Some code; final_url := final; feed_type := None;
       entries := None; is_duplicate := None; existing_name := None;
       python_score := None; language := None; sample_titles := None;
       warnings := None |}
  else skipped_accessibility.

(** 3. Structure (only if accessible). *)
Definition structure_entry (w : World) (feed_url : string) (url_valid : bool)
    (accessibility : Validation) : Validation :=
  if url_valid && default false (passed accessibility)
  then
    let '(struct_valid, ftype, entry_count, struct_msg) :=
      validate_feed_structure w 0 feed_url in
    {| passed := Some struct_valid; message := Some struct_msg;
       status_code := None; final_url := None; feed_type := ftype;
       entries := Some entry_count; is_duplicate := None;
       existing_name := None; python_score := None; language := None;
       sample_titles := None; warnings := None |}
  else skipped_structure.

(** 4. Duplicate check. *)
Definition duplicate_entry (w : World) (args : Args) (feed_url request_type : string)
    (old_url : option string) : Validation :=
  let '(dup_passed, is_dup, name, dup_msg) :=
    check_duplicate_in_config w feed_url (config_path args) request_type old_url in
  {| passed := Some dup_passed; message := Some dup_msg;
     status_code := None; final_url := None; feed_type := None;
     entries := None; is_duplicate := Some is_dup; existing_name := name;
     python_score := None; language := None; sample_titles := None;
     warnings := None |}.

(** 5. Content analysis (only if the structure is valid). *)
Definition content_entry (w : World) (feed_url : string) (structure : Validation)
  : Validation :=
  if default false (passed structure)
  then
    let '(py_score, lang, titles, warns) :=
      analyze_feed_content w 1 feed_url 10 in
    {| passed := None; message := None; status_code := None;
       final_url := None; feed_type := None; entries := None;
       is_duplicate := None; existing_name := None;
       python_score := Some py_score; language := lang;
       sample_titles := Some titles; warnings := Some warns |}
  else skipped_content.

(** The [else] branch of [main] up to the aggregation: the five entries
    recorded, in this order, when a feed URL was found. *)
Definition run_validations (w : World) (args : Args) (feed_url request_type : string)
    (old_url : option string) : gmap string Validation :=
  let url_format := url_format_entry w feed_url in
  let url_valid := default false (passed url_format) in
  let accessibility := accessibility_entry w feed_url url_valid in
  let structure := structure_entry w feed_url url_valid accessibility in
  let duplicate := duplicate_entry w args feed_url request_type old_url in
  let content := content_entry w feed_url structure in
  <["content" := content]>
    (<["duplicate" := duplicate]>
       (<["structure" := structure]>
          (<["accessibility" := accessibility]>
             (<["url_format" := url_format]> ∅)))).

(** The result document [main] builds before it writes it. *)
Definition main_result (w : World) (args : Args) : Result :=
  let issue_data := parse_issue_body (issue_body args) in
  let feed_url := default EmptyString (issue_data !! "feed-url") in
  let feed_name := default "Unknown" (issue_data !! "name") in
  let request_type := default "Add new feed" (issue_data !! "request-type") in
  let old_url := issue_data !! "old-url" in
  if negb (truthy feed_url)
  then
    {| success := Some false; feed_url := Some feed_url;
       feed_name := Some feed_name; request_type := Some request_type;
       validations := Some (<["parsing" := parsing_failed]> ∅);
       overall_status := Some "fail";
       labels := Some ["validation-failed"];
       recommendations :=
         Some ["Please ensure the feed URL field is filled in the issue template"] |}
  else
    let vals := run_validations w args feed_url request_type old_url in
    let '(status, labs, recs) := determine_overall_status vals in
    {| success := Some true; feed_url := Some feed_url;
       feed_name := Some feed_name; request_type := Some request_type;
       validations := Some vals; overall_status := Some status;
       labels := Some labs; recommendations := Some recs |}.

Definition main (w : World) (argv : Argparse Args) : Run Result :=
  match argv with
  | ArgsError => {| exit_code := argparse_error_status; written := None |}
  | ArgsParsed args =>
      let result := main_result w args in
      match write_json w (output args) result with
      | Written => {| exit_code := 0; written := Some result |}
      | WriteFileNotFound | WriteRaised _ => {| exit_code := 1; written := None |}
      end
  end.

End ValidateFeed.

(** How reading the JSON result document can end. *)
Inductive ReadOutcome :=
| Loaded (result : Result)
| ReadFileNotFound
| JSONDecodeError (msg : string)
| ReadRaised (msg : string).

(** ** format_comment.py *)

Module FormatComment.
Import PyStr.

Definition get_emoji (passed warning : bool) : string :=
  if warning then "⚠️"
  else if passed then "✅" else "❌".

Definition get_status_emoji (status : string) : string :=
  if String.eqb status "pass" then "✅"
  else if String.eqb status "warning" then "⚠️"
  else if String.eqb status "fail" then "❌"
  else "❓".

Definition format_url_validation (validation : Validation) : string :=
  let passed := default false (passed validation) in
  let message := default "Unknown" (message validation) in
  let emoji := get_emoji passed false in
  emoji +:+ " **URL Format:** " +:+ message.

Definition format_accessibility_validation (validation : Validation) : string :=
  let passed := default false (passed validation) in
  let message := default "Unknown" (message validation) in
  let status_code := default 0 (status_code validation) in
  let emoji := get_emoji passed false in
  if (0 <? status_code)%Z
  then emoji +:+ " **Accessibility:** " +:+ message
       +:+ " (HTTP " +:+ of_Z status_code +:+ ")"
  else emoji +:+ " **Accessibility:** " +:+ message.

Definition format_structure_validation (validation : Validation) : string :=
  let passed := default false (passed validation) in
  let message := default "Unknown" (message validation) in
  let entries := default 0 (entries validation) in
  let emoji := get_emoji passed false in
  if passed && (0 <? entries)%Z
  then emoji +:+ " **Feed Structure:** " +:+ message
       +:+ " (" +:+ of_Z entries +:+ " entries)"
  else emoji +:+ " **Feed Structure:** " +:+ message.

Definition format_duplicate_validation (validation : Validation) : string :=
  let passed := default false (passed validation) in
  let is_duplicate := default false (is_duplicate validation) in
  let message := default "Unknown" (message validation) in
  let emoji := get_emoji passed is_duplicate in
  match existing_name validation with
  | Some name =>
      if is_duplicate && truthy name
      then emoji +:+ " **Duplicate Check:** Feed already exists as "
           +:+ dquote +:+ name +:+ dquote
      else emoji +:+ " **Duplicate Check:** " +:+ message
  | None => emoji +:+ " **Duplicate Check:** " +:+ message
  end.

Definition format_content_validation (validation : Validation) : string :=
  let python_score := default 0 (python_score validation) in
  let warnings := default [] (warnings validation) in
  let '(emoji, status_text) :=
    if (60 <=? python_score)%Z then ("✅", "Good")
    else if (30 <=? python_score)%Z then ("⚠️", "Moderate")
    else ("⚠️", "Low") in
  let result :=
    emoji +:+ " **Python Content:** " +:+ of_Z python_score
    +:+ "% Python keywords detected (" +:+ status_text +:+ ")" in
  match warnings with
  | first :: _ =>
      if negb (String.eqb first "Skipped (feed structure invalid)")
      then fold_left (fun acc warning => acc +:+ nl +:+ "   - ⚠️  " +:+ warning)
                     (firstn 2 warnings) result
      else result
  | [] => result
  end.

Definition sample_titles_header : string :=
  nl +:+ "### 📝 Sample Article Titles" +:+ nl +:+ nl.

(** The loop over [enumerate(shown, i)]: one numbered line per title. *)
Fixpoint numbered_lines (i : Z) (shown : list string) : list string :=
  match shown with
  | [] => []
  | title :: rest =>
      (of_Z i +:+ ". " +:+ title +:+ nl) :: numbered_lines (i + 1) rest
  end.

Definition format_sample_titles (titles : list string) : string :=
  match titles with
  | [] => EmptyString
  | _ :: _ =>
      fold_left append (numbered_lines 1 (firstn 5 titles)) sample_titles_header
  end.

Definition format_recommendations (recommendations : list string) : string :=
  match recommendations with
  | [] => EmptyString
  | _ :: _ =>
      fold_left (fun acc rec => acc +:+ "- " +:+ rec +:+ nl) recommendations
                ("### 💡 Recommendations" +:+ nl +:+ nl)
      +:+ nl
  end.

(** [quote(s, safe='')]: every byte but the unreserved ones (letters,
    digits, [_], [.], [-], [~]) becomes [%XX]. *)
Definition hex_digit (n : nat) : ascii :=
  if (n <? 10)%nat then ascii_of_nat (48 + n) else ascii_of_nat (55 + n).

Definition unreserved (c : ascii) : bool :=
  let n := nat_of_ascii c in
  is_upper c || is_lower c || ((48 <=? n)%nat && (n <=? 57)%nat)
  || (n =? 95)%nat || (n =? 46)%nat || (n =? 45)%nat || (n =? 126)%nat.

Fixpoint quote (s : string) : string :=
  match s with
  | EmptyString => EmptyString
  | String c s' =>
      if unreserved c then String c (quote s')
      else
        let n := nat_of_ascii c in
        String "%" (String (hex_digit (n / 16)) (String (hex_digit (n mod 16)) (quote s')))
  end.

(** The line of one check, when the check is present. *)
Definition check_line (validations : gmap string Validation) (check : string)
    (format : Validation -> string) : string :=
  match validations !! check with
  | Some validation => format validation +:+ nl
  | None => EmptyString
  end.

(** What the statement guarded by
    [if sample_titles and overall_status != 'fail'] appends. *)
Definition sample_titles_section (result : Result) : string :=
  let overall_status := default "unknown" (overall_status result) in
  let validations := default ∅ (validations result) in
  let sample_titles := get_field validations "content" sample_titles [] in
  match sample_titles with
  | _ :: _ =>
      if negb (String.eqb overall_status "fail")
      then format_sample_titles sample_titles
      else EmptyString
  | [] => EmptyString
  end.

Definition next_steps (overall_status : string) : string :=
  if String.eqb overall_status "fail"
  then "- ❌ Please fix the errors above and update your issue" +:+ nl
  else if String.eqb overall_status "warning"
  then "- ⚠️ Review the warnings above" +:+ nl
       +:+ "- ✅ A maintainer will review your submission" +:+ nl
  else "- ✅ Your feed looks good!" +:+ nl
       +:+ "- 👀 A maintainer will review and add your feed" +:+ nl.

(** The strings [generate_comment] appends to [comment], in order. *)
Definition comment_chunks (result : Result) : list string :=
  let feed_url := default "Unknown" (feed_url result) in
  let feed_name := default "Unknown" (feed_name result) in
  let request_type := default "Unknown" (request_type result) in
  let overall_status := default "unknown" (overall_status result) in
  let validations := default ∅ (validations result) in
  let recommendations := default [] (recommendations result) in
  let labels := default [] (labels result) in
  [ "## 🔍 Feed Validation Results" +:+ nl +:+ nl;
    "**Feed URL:** `" +:+ feed_url +:+ "`" +:+ nl;
    "**Feed Name:** " +:+ feed_name +:+ nl;
    "**Request Type:** " +:+ request_type +:+ nl +:+ nl;
    "### Validation Checks" +:+ nl +:+ nl;
    check_line validations "url_format" format_url_validation;
    check_line validations "accessibility" format_accessibility_validation;
    check_line validations "structure" format_structure_validation;
    check_line validations "duplicate" format_duplicate_validation;
    check_line validations "content" format_content_validation;
    nl +:+ "---" +:+ nl +:+ nl;
    "### " +:+ get_status_emoji overall_status +:+ " Overall Status: "
      +:+ upper overall_status +:+ nl +:+ nl;
    format_recommendations recommendations;
    sample_titles_section result;
    nl +:+ "---" +:+ nl +:+ nl;
    "### 📋 Next Steps" +:+ nl +:+ nl;
    next_steps overall_status;
    nl +:+ "**Additional Validation:** [W3C Feed Validator](https://validator.w3.org/feed/check.cgi?url="
      +:+ quote feed_url +:+ ")" +:+ nl +:+ nl;
    "---" +:+ nl +:+ nl;
    "*🤖 Automated validation • Labels: `"
      +:+ match labels with [] => "none" | _ :: _ => join ", " labels end
      +:+ "`*" +:+ nl;
    "*Maintainers will manually review Python-specific content and English language requirements.*"
      +:+ nl ].

Definition generate_comment (result : Result) : string :=
  fold_left append (comment_chunks result) EmptyString.

(** *** main *)

Record World := {
  read_json : string -> ReadOutcome;
  write_text : string -> string -> WriteOutcome
}.

Record Args := {
  input : string;
  output : string
}.

Definition main (w : World) (argv : Argparse Args) : Run string :=
  match argv with
  | ArgsError => {| exit_code := argparse_error_status; written := None |}
  | ArgsParsed args =>
      match read_json w (input args) with
      | Loaded result =>
          let comment := generate_comment result in
          match write_text w (output args) comment with
          | Written => {| exit_code := 0; written := Some comment |}
          | WriteFileNotFound | WriteRaised _ =>
              {| exit_code := 1; written := None |}
          end
      | ReadFileNotFound | JSONDecodeError _ | ReadRaised _ =>
          {| exit_code := 1; written := None |}
      end
  end.

End FormatComment.

(** ** get_labels.py *)

Module GetLabels.
Import PyStr.

Record World := {
  read_json : string -> ReadOutcome
}.

(** [argv] is [sys.argv]: the script name, then the arguments. *)
Definition main (w : World) (argv : list string) : Run string :=
  match argv with
  | _ :: path :: _ =>
      match read_json w path with
      | Loaded result =>
          let labels := default [] (labels result) in
          match labels with
          | _ :: _ => {| exit_code := 0; written := Some (join "," labels) |}
          | [] => {| exit_code := 0; written := None |}
          end
      | ReadFileNotFound | JSONDecodeError _ | ReadRaised _ =>
          {| exit_code := 1; written := None |}
      end
  | _ => {| exit_code := 1; written := None |}
  end.

End GetLabels.

(** ** Notions used to state the properties *)

Import PyStr PyNum.

(** The three components of what [determine_overall_status] returns. *)
Definition status_of (validations : gmap string Validation) : string :=
  (ValidateFeed.determine_overall_status validations).1.1.
Definition labels_of (validations : gmap string Validation) : list string :=
  (ValidateFeed.determine_overall_status validations).1.2.
Definition recommendations_of (validations : gmap string Validation) : list string :=
  (ValidateFeed.determine_overall_status validations).2.

(** [url] is present in the registry: some section other than the reserved
    one has the same normalized name. *)
Definition registered (url : string) (sections : list ValidateFeed.ConfigSection) : Prop :=
  exists section name,
    In (section, name) sections /\ section <> "Planet" /\
    ValidateFeed.normalize_url section = ValidateFeed.normalize_url url.

(** Normalization as the specification words it: lowercase, then strip one
    trailing slash. *)
Definition spec_normalize (url : string) : string :=
  let url := lower url in
  if endswith_char "/" url then drop_last url else url.

(** [z] is an integer nearest to the percentage [100 * m / n]. *)
Definition nearest_percentage (z : Z) (m n : nat) : Prop :=
  2 * Z.abs (z * Z.of_nat n - 100 * Z.of_nat m) <= Z.of_nat n.

(** The number of keyword-matching entries of a sample. *)
Definition matching (sample : list ValidateFeed.Entry) : nat :=
  List.length (List.filter ValidateFeed.has_python sample).

(** No field of the mapping is the empty string. *)
Definition nonempty_values (data : gmap string string) : Prop :=
  forall field value, data !! field = Some value -> value <> EmptyString.

(** ** Concrete inputs *)

(** A mapping whose url_format check failed while the feed is a
    duplicate and the content score is 100. *)
Definition failed_url_full_score : gmap string Validation :=
  <["url_format" := ValidateFeed.check_entry false "URL missing domain/hostname"]>
    (<["duplicate" :=
         {| passed := Some true; message := None; status_code := None;
            final_url := None; feed_type := None; entries := None;
            is_duplicate := Some true; existing_name := Some "Foo";
            python_score := None; language := None; sample_titles := None;
            warnings := None |}]>
       (<["content" :=
            {| passed := None; message := None; status_code := None;
               final_url := None; feed_type := None; entries := None;
               is_duplicate := None; existing_name := None;
               python_score := Some 100; language := None;
               sample_titles := Some []; warnings := Some [] |}]> ∅)).

(** A passing duplicate: every critical check passed, the feed is
    registered and the content score is 80. *)
Definition passing_duplicate : gmap string Validation :=
  let ok :=
    {| passed := Some true; message := None; status_code := None;
       final_url := None; feed_type := None; entries := None;
       is_duplicate := Some true; existing_name := Some "Foo";
       python_score := Some 80; language := None; sample_titles := None;
       warnings := None |} in
  <["url_format" := ok]> (<["accessibility" := ok]> (<["structure" := ok]>
    (<["duplicate" := ok]> (<["content" := ok]> ∅)))).


(** Every sample size and number of matches [percentage] is compared on:
    [m] matches out of [n] entries for [0 < n < 50]. *)
Definition percentage_truncates_at (n m : nat) : bool :=
  match ValidateFeed.percentage m n with
  | inr z => z =? 100 * Z.of_nat m / Z.of_nat n
  | inl _ => false
  end.

Definition percentage_truncates_below_50 : bool :=
  forallb (fun n => forallb (percentage_truncates_at n) (seq 0 (S n))) (seq 1 49).

(** A feed of three entries, two of which mention a keyword. *)
Definition three_entries : list ValidateFeed.Entry :=
  [ {| ValidateFeed.entry_title := Some "Python 3.13 released";
       ValidateFeed.entry_summary := Some "What is new" |};
    {| ValidateFeed.entry_title := Some "A walk in the hills";
       ValidateFeed.entry_summary := None |};
    {| ValidateFeed.entry_title := Some "Testing";
       ValidateFeed.entry_summary := Some "Fixtures in PyTest" |} ].

Definition three_entries_feed : ValidateFeed.Feed :=
  {| ValidateFeed.bozo := false; ValidateFeed.bozo_exception := None;
     ValidateFeed.version := Some "rss20";
     ValidateFeed.feed_entries := Some three_entries;
     ValidateFeed.feed_meta := Some (Some "en") |}.

(** A registry holding one feed, after the reserved section. *)
Definition sample_sections : list ValidateFeed.ConfigSection :=
  [("Planet", ValidateFeed.NameValue "Planet Python");
   ("http://foo.com/feed", ValidateFeed.NameValue "Foo")].

(** A world in which every URL parses, answers 200 without redirect and
    serves [three_entries_feed]; the registry holds one feed. *)
Definition sample_world : ValidateFeed.World :=
  {| ValidateFeed.urlparse := fun _ => ValidateFeed.UrlParsed "https" "example.com";
     ValidateFeed.requests_get := fun url _ => ValidateFeed.Responded 200 url;
     ValidateFeed.feedparser_parse := fun _ _ => ValidateFeed.FeedParsed three_entries_feed;
     ValidateFeed.config_read := fun _ => ValidateFeed.ConfigSections sample_sections;
     ValidateFeed.write_json := fun _ _ => Written |}.




(** An issue form that gives a feed URL and a name, and no request type. *)
Definition issue_without_request_type : string :=
  "### Feed URL" +:+ nl +:+ nl +:+ "HTTP://Foo.com/Feed/" +:+ nl +:+ nl
  +:+ "### Blog Name" +:+ nl +:+ nl +:+ "Foo" +:+ nl +:+ nl
  +:+ "### Old feed URL" +:+ nl +:+ nl +:+ "_No response_".

Definition sample_args (body : string) : ValidateFeed.Args :=
  {| ValidateFeed.issue_body := body;
     ValidateFeed.config_path := "config.ini";
     ValidateFeed.output := "result.json" |}.




(** The result of [sample_world] on the issue without request type: the
    critical checks pass, the feed is already registered, and its three
    titles are sampled. *)
Definition sample_result : Result :=
  ValidateFeed.main_result sample_world (sample_args issue_without_request_type).

(** Worlds for the two reading scripts: the result file holds
    [sample_result], and writing succeeds. *)
Definition sample_format_world : FormatComment.World :=
  {| FormatComment.read_json := fun _ => Loaded sample_result;
     FormatComment.write_text := fun _ _ => Written |}.

Definition sample_labels_world : GetLabels.World :=
  {| GetLabels.read_json := fun _ => Loaded sample_result |}.

(** The claim on missing arguments, as the specification states it: each
    stage exits with status 1 when a required argument is missing. *)
Definition missing_arguments_claim (w : ValidateFeed.World)
    (fw : FormatComment.World) (lw : GetLabels.World) : Prop :=
  exit_code (ValidateFeed.main w ArgsError) = 1
  /\ exit_code (FormatComment.main fw ArgsError) = 1
  /\ exit_code (GetLabels.main lw ["get_labels.py"]) = 1.

(** ** Notions used by the further properties *)

(** The five pairs of overall status and labels the aggregator can
    answer. *)
Definition aggregator_answers : list (string * list string) :=
  [ ("fail", ["validation-failed"]);
    ("warning", ["duplicate-feed"; "validation-warning"]);
    ("warning", ["validation-warning"]);
    ("pass", ["duplicate-feed"]);
    ("pass", ["validation-passed"]) ].

(** The content score recorded in a mapping, as the aggregator reads it. *)
Definition score_of (validations : gmap string Validation) : Z :=
  get_field validations "content" python_score 0.

(** Every critical check of the mapping passed. *)
Definition critical_passed (validations : gmap string Validation) : Prop :=
  forall check, In check ValidateFeed.critical_checks ->
                get_field validations check passed false = true.

(** The titles a sample gives for display: the non-empty titles, each cut
    to its first 100 characters, and of those the first five. *)
Definition shown_titles (sample : list ValidateFeed.Entry) : list string :=
  firstn 5
    (map (take 100)
       (List.filter truthy
          (map (fun entry => default EmptyString (ValidateFeed.entry_title entry))
               sample))).

(** A title as it may be displayed: not empty, at most 100 characters
    (code points). *)
Definition displayable (title : string) : Prop :=
  title <> EmptyString /\ (code_points title <= 100)%nat.

(** A feed of sixty entries with the same title, of more than 100
    characters, some of them outside ASCII, none of which mentions a
    keyword; and a world serving it. *)
Definition long_title : string :=
  "Une très longue manchette à propos du jardinage, de la pêche, de la "
  +:+ "randonnée, de la voile, de la peinture et de tout ce qui peut occuper un jour de pluie".

Definition sixty_entries : list ValidateFeed.Entry :=
  repeat {| ValidateFeed.entry_title := Some long_title;
            ValidateFeed.entry_summary := None |} 60.

Definition sixty_entries_feed : ValidateFeed.Feed :=
  {| ValidateFeed.bozo := false; ValidateFeed.bozo_exception := None;
     ValidateFeed.version := Some "atom10";
     ValidateFeed.feed_entries := Some sixty_entries;
     ValidateFeed.feed_meta := None |}.

Definition sixty_entries_world : ValidateFeed.World :=
  {| ValidateFeed.urlparse := ValidateFeed.urlparse sample_world;
     ValidateFeed.requests_get := ValidateFeed.requests_get sample_world;
     ValidateFeed.feedparser_parse := fun _ _ =>
       ValidateFeed.FeedParsed sixty_entries_feed;
     ValidateFeed.config_read := ValidateFeed.config_read sample_world;
     ValidateFeed.write_json := ValidateFeed.write_json sample_world |}.

(** A string of whitespace only. *)
Fixpoint blank (s : string) : bool :=
  match s with
  | EmptyString => true
  | String c s' => is_space c && blank s'
  end.

(** Looking up the name of no section raises. *)
Definition names_readable (sections : list ValidateFeed.ConfigSection) : Prop :=
  forall section msg, ~ In (section, ValidateFeed.NameRaised msg) sections.

(** A section that is not the reserved one. *)
Definition is_feed_section (section : ValidateFeed.ConfigSection) : bool :=
  negb (String.eqb section.1 "Planet").

(** A world reading the given sections from any path. *)
Definition world_with_sections (sections : list ValidateFeed.ConfigSection)
  : ValidateFeed.World :=
  {| ValidateFeed.urlparse := ValidateFeed.urlparse sample_world;
     ValidateFeed.requests_get := ValidateFeed.requests_get sample_world;
     ValidateFeed.feedparser_parse := ValidateFeed.feedparser_parse sample_world;
     ValidateFeed.config_read := fun _ => ValidateFeed.ConfigSections sections;
     ValidateFeed.write_json := ValidateFeed.write_json sample_world |}.

(** The three conditions the critical checks test, on the outcomes of the
    library calls: the URL parses with scheme http or https and a host; the
    request is answered with status 200; the first parse of the feed is
    clean, detects a format and finds at least one entry. *)
Definition url_ok (w : ValidateFeed.World) (url : string) : Prop :=
  exists scheme netloc,
    ValidateFeed.urlparse w url = ValidateFeed.UrlParsed scheme netloc
    /\ (scheme = "http" \/ scheme = "https") /\ netloc <> EmptyString.

Definition reachable (w : ValidateFeed.World) (url : string) : Prop :=
  exists final, ValidateFeed.requests_get w url 10 = ValidateFeed.Responded 200 final.

Definition well_formed (w : ValidateFeed.World) (url : string) : Prop :=
  exists feed format feed_entries,
    ValidateFeed.feedparser_parse w 0 url = ValidateFeed.FeedParsed feed
    /\ ValidateFeed.bozo feed = false
    /\ ValidateFeed.version feed = Some format /\ format <> EmptyString
    /\ ValidateFeed.feed_entries feed = Some feed_entries /\ feed_entries <> [].

(** The request type and old URL [main] takes from an issue body. *)
Definition request_of (body : string) : string :=
  default "Add new feed" (ValidateFeed.parse_issue_body body !! "request-type").
Definition old_url_of (body : string) : option string :=
  ValidateFeed.parse_issue_body body !! "old-url".

(** A world in which no URL can be fetched and no feed parsed: every
    request times out and every parse raises. *)
Definition offline_world : ValidateFeed.World :=
  {| ValidateFeed.urlparse := ValidateFeed.urlparse sample_world;
     ValidateFeed.requests_get := fun _ _ => ValidateFeed.Timeout;
     ValidateFeed.feedparser_parse := fun _ _ => ValidateFeed.FeedRaised "offline";
     ValidateFeed.config_read := ValidateFeed.config_read sample_world;
     ValidateFeed.write_json := ValidateFeed.write_json sample_world |}.

(** A world like [sample_world] in which no URL has a scheme. *)
Definition schemeless_world : ValidateFeed.World :=
  {| ValidateFeed.urlparse := fun _ => ValidateFeed.UrlParsed EmptyString EmptyString;
     ValidateFeed.requests_get := ValidateFeed.requests_get sample_world;
     ValidateFeed.feedparser_parse := ValidateFeed.feedparser_parse sample_world;
     ValidateFeed.config_read := ValidateFeed.config_read sample_world;
     ValidateFeed.write_json := ValidateFeed.write_json sample_world |}.

(** The same, offline. *)
Definition schemeless_offline_world : ValidateFeed.World :=
  {| ValidateFeed.urlparse := ValidateFeed.urlparse schemeless_world;
     ValidateFeed.requests_get := ValidateFeed.requests_get offline_world;
     ValidateFeed.feedparser_parse := ValidateFeed.feedparser_parse offline_world;
     ValidateFeed.config_read := ValidateFeed.config_read sample_world;
     ValidateFeed.write_json := ValidateFeed.write_json sample_world |}.

(** The five check lines of a report. *)
Definition check_lines (result : Result) : list string :=
  let validations := default ∅ (validations result) in
  [ FormatComment.check_line validations "url_format"
      FormatComment.format_url_validation;
    FormatComment.check_line validations "accessibility"
      FormatComment.format_accessibility_validation;
    FormatComment.check_line validations "structure"
      FormatComment.format_structure_validation;
    FormatComment.check_line validations "duplicate"
      FormatComment.format_duplicate_validation;
    FormatComment.check_line validations "content"
      FormatComment.format_content_validation ].

(** The label lists the pipeline can write. *)
Definition label_lists : list (list string) := map snd aggregator_answers.

(** Text of ASCII characters only, on which [lower], [upper] and [strip]
    are those of Python. *)
Fixpoint ascii_text (s : string) : bool :=
  match s with
  | EmptyString => true
  | String c s' => (nat_of_ascii c <? 128)%nat && ascii_text s'
  end.

(** A feed entry given as a title and a summary. *)
Definition entry_of (title summary : string) : ValidateFeed.Entry :=
  {| ValidateFeed.entry_title := Some title;
     ValidateFeed.entry_summary := Some summary |}.

(** The four fields an issue body can give. *)
Definition issue_fields : list string :=
  ["feed-url"; "name"; "request-type"; "old-url"].

(** Every character of the string satisfies the test. *)
Fixpoint all_chars (test : ascii -> bool) (s : string) : bool :=
  match s with
  | EmptyString => true
  | String c s' => test c && all_chars test s'
  end.

(** The characters a percent-encoded string is made of. *)
Definition percent_encoded_char (c : ascii) : bool :=
  FormatComment.unreserved c || Ascii.eqb c "%".

(** The value of a hexadecimal digit as [hex_digit] writes it. *)
Definition hex_value (c : ascii) : nat :=
  let n := nat_of_ascii c in
  if (n <? 58)%nat then (n - 48)%nat else (n - 55)%nat.
(** ** The status aggregator *)

Section Aggregator.
Import ValidateFeed.
Implicit Types validations : gmap string Validation.

Lemma has_critical_failure_true validations check :
  In check critical_checks ->
  get_field validations check passed false = false ->
  has_critical_failure validations = true.
Proof.
  intros Hin Hfail. unfold has_critical_failure.
  apply existsb_exists. exists check. split; [exact Hin|].
  now rewrite Hfail.
Qed.

(** C1: as soon as one of the three critical checks (url_format,
    accessibility, structure) is recorded as not passed, the aggregator
    answers 'fail' with the single label 'validation-failed' and exactly
    one recommendation, whatever the duplicate and content entries hold
    (the content score may be 100). *)
Theorem critical_failure_forces_fail validations check :
  In check critical_checks ->
  get_field validations check passed false = false ->
  determine_overall_status validations =
    ("fail", ["validation-failed"],
     ["Please fix the critical errors above before resubmitting"])
  /\ List.length (recommendations_of validations) = 1%nat.
Proof.
  intros Hin Hfail.
  pose proof (has_critical_failure_true _ _ Hin Hfail) as Hc.
  unfold recommendations_of, determine_overall_status. rewrite Hc.
  split; reflexivity.
Qed.

Lemma critical_failure_forces_fail_witness :
  get_field failed_url_full_score "content" python_score 0 = 100 /\
  determine_overall_status failed_url_full_score =
    ("fail", ["validation-failed"],
     ["Please fix the critical errors above before resubmitting"])
  /\ List.length (recommendations_of failed_url_full_score) = 1%nat.
Proof.
  split; [vm_compute; reflexivity|].
  apply (critical_failure_forces_fail failed_url_full_score "url_format").
  - simpl. left. reflexivity.
  - vm_compute. reflexivity.
Defined.

(** C5: the labels never hold both 'duplicate-feed' and
    'validation-failed'.  When no critical check failed and the feed is a
    duplicate, 'duplicate-feed' comes with 'validation-warning' for a
    content score below 60, and alone (no 'validation-passed') for a
    score of 60 or more. *)
Theorem duplicate_label_excludes_failed validations :
  ~ (In "duplicate-feed" (labels_of validations) /\
     In "validation-failed" (labels_of validations))
  /\ (has_critical_failure validations = false ->
      get_field validations "duplicate" is_duplicate false = true ->
      (get_field validations "content" python_score 0 < 60 ->
       labels_of validations = ["duplicate-feed"; "validation-warning"])
      /\ (60 <= get_field validations "content" python_score 0 ->
          labels_of validations = ["duplicate-feed"]
          /\ status_of validations = "pass")).
Proof.
  unfold labels_of, status_of, determine_overall_status.
  destruct (has_critical_failure validations) eqn:Hc.
  - split; [|discriminate].
    simpl. intros [[H|[]] _]. discriminate H.
  - destruct (get_field validations "duplicate" is_duplicate false) eqn:Hd;
      destruct (get_field validations "content" python_score 0 <? 30) eqn:H30;
      destruct (get_field validations "content" python_score 0 <? 60) eqn:H60;
      simpl; (split; [intros [Ha Hb]; simpl in *; intuition discriminate|]);
      intros _ Hdup; try discriminate Hdup;
      apply Z.ltb_ge in H30 || apply Z.ltb_lt in H30;
      apply Z.ltb_ge in H60 || apply Z.ltb_lt in H60;
      split; intros Hs; try lia; auto.
Qed.

Lemma duplicate_label_excludes_failed_witness :
  labels_of passing_duplicate = ["duplicate-feed"]
  /\ status_of passing_duplicate = "pass".
Proof.
  apply (duplicate_label_excludes_failed passing_duplicate).
  - vm_compute. reflexivity.
  - vm_compute. reflexivity.
  - vm_compute. discriminate.
Defined.

End Aggregator.

(** ** The content relevance score *)

Section ContentScore.
Import ValidateFeed.

Lemma analyze_entry_count python_count sample_titles entry :
  (analyze_entry (python_count, sample_titles) entry).1 =
  (python_count + (if has_python entry then 1 else 0))%nat.
Proof.
  unfold analyze_entry. destruct (has_python entry); simpl; lia.
Qed.

Lemma fold_analyze_count sample : forall st,
  (fold_left analyze_entry sample st).1 = (st.1 + matching sample)%nat.
Proof.
  unfold matching.
  induction sample as [|entry sample IH]; intros [python_count sample_titles].
  - simpl. lia.
  - cbn [fold_left]. rewrite IH, analyze_entry_count. cbn [List.filter].
    destruct (has_python entry); simpl; lia.
Qed.

Lemma matching_le_length sample : (matching sample <= List.length sample)%nat.
Proof. unfold matching. apply List.filter_length_le. Qed.

Lemma percentage_truncates_below_50_ok : percentage_truncates_below_50 = true.
Proof. vm_compute. reflexivity. Qed.

(** Below 50 sampled entries the float computation is exact: the score
    is the integer quotient of [100 * m] by [n]. *)
Lemma percentage_truncates m n :
  (0 < n < 50)%nat -> (m <= n)%nat ->
  percentage m n = inr (100 * Z.of_nat m / Z.of_nat n).
Proof.
  intros Hn Hm.
  pose proof percentage_truncates_below_50_ok as H.
  unfold percentage_truncates_below_50 in H.
  rewrite forallb_forall in H.
  assert (Hin : In n (seq 1 49)) by (apply in_seq; lia).
  specialize (H n Hin). rewrite forallb_forall in H.
  assert (Him : In m (seq 0 (S n))) by (apply in_seq; lia).
  specialize (H m Him). unfold percentage_truncates_at in H.
  destruct (percentage m n) as [e|z]; [discriminate|].
  apply Z.eqb_eq in H. now subst.
Qed.

(** The bound is tight: at 29 matches out of 50 the product
    [0.58 * 100] is the float just below 58. *)
Remark percentage_29_of_50 :
  percentage 29 50 = inr 57 /\ 100 * Z.of_nat 29 / Z.of_nat 50 = 58.
Proof. split; vm_compute; reflexivity. Qed.

(** The division raises exactly on an empty sample. *)
Lemma percentage_zero_division m n :
  percentage m n = inl ZeroDivisionError <-> n = O.
Proof.
  unfold percentage, truediv, bind. destruct n as [|n].
  - split; reflexivity.
  - split; [|discriminate].
    unfold int_of_float.
    destruct (Prim2SF _) as [s|s| |s mant e]; discriminate.
Qed.

(** C2 (amended): on a sample of [n] entries, [0 < n < 50] (the
    pipeline samples at most 10), of which [m] match a keyword, the
    score is the percentage truncated to an integer, [100 * m / n]
    rounded down, not rounded to the nearest integer. *)
Theorem content_score_truncated w call url sample_size feed all_entries :
  feedparser_parse w call url = FeedParsed feed ->
  bozo feed = false ->
  feed_entries feed = Some all_entries ->
  (0 < List.length (slice_to sample_size all_entries) < 50)%nat ->
  (analyze_feed_content w call url sample_size).1.1.1 =
    100 * Z.of_nat (matching (slice_to sample_size all_entries))
    / Z.of_nat (List.length (slice_to sample_size all_entries)).
Proof.
  intros Hparse Hbozo Hentries Hlen.
  unfold analyze_feed_content, analyze_feed_content_try.
  rewrite Hparse, Hbozo, Hentries.
  set (sample := slice_to sample_size all_entries) in *.
  destruct sample as [|entry rest] eqn:Hsample; [simpl in Hlen; lia|].
  rewrite <- Hsample in *.
  destruct (fold_left analyze_entry sample (O, [])) as [python_count titles] eqn:Hfold.
  assert (Hcount : python_count = matching sample).
  { pose proof (fold_analyze_count sample (O, [])) as Hc.
    rewrite Hfold in Hc. simpl in Hc. exact Hc. }
  subst python_count.
  rewrite (percentage_truncates (matching sample) (List.length sample) Hlen
             (matching_le_length sample)).
  reflexivity.
Qed.

Lemma content_score_truncated_witness :
  (analyze_feed_content sample_world 1 "https://example.com/feed.xml" 10).1.1.1 = 66.
Proof.
  rewrite (content_score_truncated sample_world 1 "https://example.com/feed.xml" 10
             three_entries_feed three_entries).
  - vm_compute. reflexivity.
  - reflexivity.
  - reflexivity.
  - reflexivity.
  - vm_compute. lia.
Defined.

(** C2 as stated fails: with 2 matching entries out of 3 the score is 66,
    and 66 is not an integer nearest to 200/3. *)
Lemma content_score_not_rounded :
  let sample := slice_to 10 three_entries in
  List.length sample = 3%nat /\ matching sample = 2%nat /\
  ~ nearest_percentage
      (analyze_feed_content sample_world 1 "https://example.com/feed.xml" 10).1.1.1
      (matching sample) (List.length sample).
Proof.
  split; [reflexivity|]. split; [vm_compute; reflexivity|].
  unfold nearest_percentage. vm_compute. intros H. apply H. reflexivity.
Qed.

(** C10: the score computation never divides by zero.  The [try] block
    never raises [ZeroDivisionError]; an empty sample returns early, with
    score 0 and a warning; and in every other case the division that is
    evaluated has a positive divisor and yields a float. *)
Theorem content_score_no_zero_division w call url sample_size :
  analyze_feed_content_try w call url sample_size <> inl ZeroDivisionError
  /\ (forall feed all_entries,
        feedparser_parse w call url = FeedParsed feed ->
        bozo feed = false ->
        feed_entries feed = Some all_entries ->
        (slice_to sample_size all_entries = [] ->
         analyze_feed_content w call url sample_size =
           (0, match feed_meta feed with Some meta => meta | None => None end,
            [], ["Feed has no entries to analyze"]))
        /\ (slice_to sample_size all_entries <> [] ->
            (0 < List.length (slice_to sample_size all_entries))%nat /\
            exists ratio,
              truediv (matching (slice_to sample_size all_entries))
                      (List.length (slice_to sample_size all_entries)) = inr ratio)).
Proof.
  split.
  - unfold analyze_feed_content_try.
    destruct (feedparser_parse w call url) as [feed|msg]; [|discriminate].
    destruct (bozo feed); [discriminate|].
    destruct (feed_entries feed) as [all_entries|]; [|discriminate].
    destruct (slice_to sample_size all_entries) as [|entry rest] eqn:Hsample;
      [discriminate|].
    destruct (fold_left analyze_entry (entry :: rest) (O, []))
      as [python_count titles].
    destruct (percentage python_count (List.length (entry :: rest))) as [e|z] eqn:Hp.
    + simpl. intros Heq. injection Heq as ->.
      apply percentage_zero_division in Hp. discriminate Hp.
    + simpl. discriminate.
  - intros feed all_entries Hparse Hbozo Hentries. split.
    + intros Hempty. unfold analyze_feed_content, analyze_feed_content_try.
      rewrite Hparse, Hbozo, Hentries, Hempty. reflexivity.
    + intros Hne.
      destruct (slice_to sample_size all_entries) as [|entry rest]; [congruence|].
      split; [simpl; lia|]. simpl. eexists. reflexivity.
Qed.

Lemma content_score_no_zero_division_witness :
  analyze_feed_content sample_world 1 "https://example.com/feed.xml" 0 =
    (0, Some "en", [], ["Feed has no entries to analyze"]).
Proof.
  apply (content_score_no_zero_division sample_world 1 "https://example.com/feed.xml" 0)
    with (feed := three_entries_feed) (all_entries := three_entries);
    reflexivity.
Defined.

End ContentScore.

(** ** The duplicate check *)

Section Duplicate.
Import ValidateFeed.

Lemma find_duplicate_None normalized_new sections :
  find_duplicate normalized_new sections = None <->
  (forall section name, In (section, name) sections -> section <> "Planet" ->
                        normalize_url section <> normalized_new).
Proof.
  induction sections as [|[section name] rest IH]; simpl.
  - split; [intros _ ? ? []|reflexivity].
  - destruct (String.eqb_spec section "Planet") as [Hp|Hp].
    + rewrite IH. split.
      * intros H s n [Heq|Hin] Hs; [injection Heq as <- <-; contradiction|eauto].
      * intros H s n Hin. apply (H s n). now right.
    + destruct (String.eqb_spec (normalize_url section) normalized_new) as [Hn|Hn].
      * split; [discriminate|]. intros H. exfalso.
        apply (H section name); auto.
      * rewrite IH. split.
        -- intros H s n [Heq|Hin] Hs; [injection Heq as <- <-; exact Hn|eauto].
        -- intros H s n Hin. apply (H s n). now right.
Qed.

Lemma find_duplicate_registered url sections :
  registered url sections <->
  exists name, find_duplicate (normalize_url url) sections = Some name.
Proof.
  split.
  - intros (section & name & Hin & Hp & Hn).
    destruct (find_duplicate (normalize_url url) sections) as [found|] eqn:E;
      [eauto|].
    exfalso. rewrite find_duplicate_None in E. exact (E _ _ Hin Hp Hn).
  - intros [found E]. unfold registered.
    induction sections as [|[section name] rest IH]; simpl in E; [discriminate|].
    destruct (String.eqb_spec section "Planet") as [Hp|Hp].
    + destruct (IH E) as (s & n & Hin & Hs & Hn). exists s, n. simpl. auto.
    + destruct (String.eqb_spec (normalize_url section) (normalize_url url)) as [Hn|Hn].
      * exists section, name. simpl. auto.
      * destruct (IH E) as (s & n & Hin & Hs & Hn'). exists s, n. simpl. auto.
Qed.

Lemma old_found_registered old sections :
  old_found (normalize_url old) sections = true <-> registered old sections.
Proof.
  rewrite find_duplicate_registered.
  induction sections as [|[section name] rest IH]; simpl.
  - split; [discriminate|intros [? ?]; discriminate].
  - destruct (String.eqb section "Planet"); [exact IH|].
    destruct (String.eqb (normalize_url section) (normalize_url old)); [|exact IH].
    split; eauto.
Qed.


(** What the first loop finds is the name lookup of a matching section. *)
Lemma find_duplicate_Some normalized_new sections lookup :
  find_duplicate normalized_new sections = Some lookup ->
  exists section,
    In (section, lookup) sections /\ section <> "Planet" /\
    normalize_url section = normalized_new.
Proof.
  induction sections as [|[section name] rest IH]; simpl; [discriminate|].
  destruct (String.eqb_spec section "Planet") as [Hp|Hp].
  - intros E. destruct (IH E) as (s & Hin & H). exists s. auto.
  - destruct (String.eqb_spec (normalize_url section) normalized_new) as [Hn|Hn].
    + intros [= <-]. exists section. auto.
    + intros E. destruct (IH E) as (s & Hin & H). exists s. auto.
Qed.



(** *** Normalization *)

Lemma is_space_lower_char c : is_space (lower_char c) = is_space c.
Proof.
  destruct c as [[] [] [] [] [] [] [] []]; reflexivity.
Qed.

Lemma lstrip_lower s : lstrip (lower s) = lower (lstrip s).
Proof.
  induction s as [|c s IH]; [reflexivity|].
  simpl. rewrite is_space_lower_char.
  destruct (is_space c); [exact IH|reflexivity].
Qed.

Lemma rstrip_lower s : rstrip (lower s) = lower (rstrip s).
Proof.
  induction s as [|c s IH]; [reflexivity|].
  simpl. rewrite IH, is_space_lower_char.
  destruct (rstrip s); simpl; [destruct (is_space c)|]; reflexivity.
Qed.

Lemma strip_lower s : strip (lower s) = lower (strip s).
Proof. unfold strip. now rewrite lstrip_lower, rstrip_lower. Qed.

(** On a URL without surrounding whitespace, [normalize_url] is the
    normalization of the specification. *)
Lemma normalize_url_trimmed url :
  strip url = url -> normalize_url url = spec_normalize url.
Proof.
  intros H. unfold normalize_url, spec_normalize.
  now rewrite strip_lower, H.
Qed.




(** Without surrounding whitespace the specification's own normalization
    decides: URLs that differ only in letter case or by one trailing slash
    are the same entry. *)
Corollary trimmed_match_is_registered url sections section name :
  In (section, name) sections ->
  section <> "Planet" ->
  strip section = section -> strip url = url ->
  spec_normalize section = spec_normalize url ->
  registered url sections.
Proof.
  intros Hin Hp Hs Hu Hn.
  exists section, name. repeat split; auto. now rewrite !normalize_url_trimmed.
Qed.

End Duplicate.

(** ** The pipeline *)

Section Pipeline.
Import ValidateFeed.

(** *** The extracted fields are never empty *)

Lemma parse_section_nonempty data section :
  nonempty_values data -> nonempty_values (parse_section data section).
Proof.
  intros Hdata. unfold parse_section.
  destruct (negb (truthy (strip section))); [exact Hdata|].
  destruct (split_once "010" (strip section)) as [|header0 [|value0 rest]];
    try exact Hdata.
  destruct (String.eqb_spec (strip value0) "_No response_") as [|_];
    [exact Hdata|].
  destruct (String.eqb_spec (strip value0) EmptyString) as [|Hne];
    [exact Hdata|]. simpl.
  destruct (field_of_header (lower (strip header0))) as [field|]; [|exact Hdata].
  intros k v. rewrite lookup_insert.
  case_decide; [intros [= <-]; exact Hne|apply Hdata].
Qed.

Lemma fold_parse_section_nonempty sections : forall data,
  nonempty_values data -> nonempty_values (fold_left parse_section sections data).
Proof.
  induction sections as [|section rest IH]; intros data Hdata; [exact Hdata|].
  simpl. apply IH. now apply parse_section_nonempty.
Qed.

Lemma parse_issue_body_nonempty body : nonempty_values (parse_issue_body body).
Proof.
  unfold parse_issue_body. apply fold_parse_section_nonempty.
  intros field value. rewrite lookup_empty. discriminate.
Qed.

(** *** What [main] records *)

Lemma truthy_nonempty s : s <> EmptyString -> truthy s = true.
Proof. destruct s; [contradiction|reflexivity]. Qed.



Lemma main_result_without_url w args :
  parse_issue_body (issue_body args) !! "feed-url" = None ->
  validations (main_result w args) = Some {["parsing" := parsing_failed]}
  /\ overall_status (main_result w args) = Some "fail"
  /\ success (main_result w args) = Some false.
Proof.
  intros Hurl. unfold main_result. rewrite Hurl. simpl. auto.
Qed.


Lemma run_validations_lookup w args url request old :
  let vals := run_validations w args url request old in
  let url_valid := default false (passed (url_format_entry w url)) in
  let accessibility := accessibility_entry w url url_valid in
  let structure := structure_entry w url url_valid accessibility in
  vals !! "url_format" = Some (url_format_entry w url)
  /\ vals !! "accessibility" = Some accessibility
  /\ vals !! "structure" = Some structure
  /\ vals !! "duplicate" = Some (duplicate_entry w args url request old)
  /\ vals !! "content" = Some (content_entry w url structure).
Proof.
  unfold run_validations. cbv zeta.
  repeat split;
    repeat (rewrite lookup_insert_ne by discriminate);
    apply lookup_insert_eq.
Qed.

(** The skipped content entry carries a score and a warning, and no
    [passed] field. *)
Remark skipped_content_fields :
  passed skipped_content = None
  /\ python_score skipped_content = Some 0
  /\ warnings skipped_content = Some ["Skipped (feed structure invalid)"].
Proof. repeat split. Qed.




End Pipeline.

Section PipelineWitnesses.
Import ValidateFeed.



End PipelineWitnesses.

(** ** The report renderer *)

Section Renderer.
Import FormatComment.

Lemma append_cons x (a b : string) : String x a +:+ b = String x (a +:+ b).
Proof. reflexivity. Qed.

Lemma append_assoc (a b c : string) : (a +:+ b) +:+ c = a +:+ (b +:+ c).
Proof.
  induction a as [|x a IH]; [reflexivity|].
  now rewrite !append_cons, IH.
Qed.

Lemma append_empty_r (a : string) : a +:+ EmptyString = a.
Proof.
  induction a as [|x a IH]; [reflexivity|].
  now rewrite append_cons, IH.
Qed.








End Renderer.

(** ** Exit statuses *)

Section ExitCodes.

(** C8 as stated fails: the two stages that read their arguments with
    [argparse] leave a missing required argument to the library, which
    ends the process with status 2, not 1. *)
Lemma missing_arguments_claim_fails :
  ~ missing_arguments_claim sample_world sample_format_world sample_labels_world.
Proof.
  unfold missing_arguments_claim. intros (Hv & _ & _).
  simpl in Hv. unfold argparse_error_status in Hv. discriminate Hv.
Qed.

(** C8 (amended): each stage exits with status 0 when it completes its
    work, whatever the overall status it computed or read; it exits with
    status 1 when reading its input or writing its output fails (missing
    file, malformed JSON, any other exception), and [get_labels.py] also
    when its file argument is missing.  [validate_feed.py] and
    [format_comment.py] exit with the status 2 of [argparse] when a
    required argument is missing. *)
Theorem exit_statuses :
  (* validate_feed.py *)
  (forall w args,
     ValidateFeed.write_json w (ValidateFeed.output args)
       (ValidateFeed.main_result w args) = Written ->
     ValidateFeed.main w (ArgsParsed args) =
       {| exit_code := 0; written := Some (ValidateFeed.main_result w args) |})
  /\ (forall w args,
        ValidateFeed.write_json w (ValidateFeed.output args)
          (ValidateFeed.main_result w args) <> Written ->
        exit_code (ValidateFeed.main w (ArgsParsed args)) = 1)
  /\ (forall w, exit_code (ValidateFeed.main w ArgsError) = 2)
  (* format_comment.py *)
  /\ (forall w args result,
        FormatComment.read_json w (FormatComment.input args) = Loaded result ->
        FormatComment.write_text w (FormatComment.output args)
          (FormatComment.generate_comment result) = Written ->
        FormatComment.main w (ArgsParsed args) =
          {| exit_code := 0;
             written := Some (FormatComment.generate_comment result) |})
  /\ (forall w args,
        (forall result,
           FormatComment.read_json w (FormatComment.input args) = Loaded result ->
           FormatComment.write_text w (FormatComment.output args)
             (FormatComment.generate_comment result) <> Written) ->
        exit_code (FormatComment.main w (ArgsParsed args)) = 1)
  /\ (forall w, exit_code (FormatComment.main w ArgsError) = 2)
  (* get_labels.py *)
  /\ (forall w script path rest result,
        GetLabels.read_json w path = Loaded result ->
        exit_code (GetLabels.main w (script :: path :: rest)) = 0)
  /\ (forall w script path rest,
        (forall result, GetLabels.read_json w path <> Loaded result) ->
        exit_code (GetLabels.main w (script :: path :: rest)) = 1)
  /\ (forall w argv,
        (List.length argv < 2)%nat -> exit_code (GetLabels.main w argv) = 1).
Proof.
  repeat split.
  - intros w args Hw. unfold ValidateFeed.main. now rewrite Hw.
  - intros w args Hw. unfold ValidateFeed.main.
    destruct (ValidateFeed.write_json _ _ _); [contradiction| |]; reflexivity.
  - intros w args result Hr Hw. unfold FormatComment.main. now rewrite Hr, Hw.
  - intros w args H. unfold FormatComment.main.
    destruct (FormatComment.read_json w (FormatComment.input args))
      as [result| | |]; try reflexivity.
    specialize (H result eq_refl).
    destruct (FormatComment.write_text _ _ _); [contradiction| |]; reflexivity.
  - intros w script path rest result Hr. unfold GetLabels.main. rewrite Hr.
    destruct (default [] (labels result)); reflexivity.
  - intros w script path rest H. unfold GetLabels.main.
    destruct (GetLabels.read_json w path) as [result| | |]; try reflexivity.
    now specialize (H result).
  - intros w [|script [|path rest]] Hlen; simpl in *; try reflexivity. lia.
Qed.

(** A run whose validation fails (no feed URL in the issue) still exits
    with status 0, and [get_labels.py] without argument with status 1. *)
Lemma exit_statuses_witness :
  overall_status (ValidateFeed.main_result sample_world (sample_args EmptyString))
  = Some "fail"
  /\ ValidateFeed.main sample_world (ArgsParsed (sample_args EmptyString)) =
       {| exit_code := 0;
          written := Some (ValidateFeed.main_result sample_world
                             (sample_args EmptyString)) |}
  /\ exit_code (GetLabels.main sample_labels_world ["get_labels.py"]) = 1.
Proof.
  destruct exit_statuses as (Hvalidate & _ & _ & _ & _ & _ & _ & _ & Hlabels).
  split; [reflexivity|]. split.
  - apply (Hvalidate sample_world (sample_args EmptyString)). reflexivity.
  - apply (Hlabels sample_labels_world ["get_labels.py"]). simpl. lia.
Defined.

End ExitCodes.

(** ** Worked examples *)

Section Examples.
Import ValidateFeed.

Example parse_issue_body_sample :
  parse_issue_body issue_without_request_type =
  <["feed-url" := "HTTP://Foo.com/Feed/"]> (<["name" := "Foo"]> ∅).
Proof. vm_compute. reflexivity. Qed.

Example normalize_url_case_and_slash :
  normalize_url "HTTP://Foo.com/Feed/" = "http://foo.com/feed"
  /\ normalize_url "http://foo.com/feed" = "http://foo.com/feed".
Proof. split; reflexivity. Qed.

Example percentage_3_of_10 : percentage 3 10 = inr 30.
Proof. vm_compute. reflexivity. Qed.

Example percentage_6_of_10 : percentage 6 10 = inr 60.
Proof. vm_compute. reflexivity. Qed.

Example sample_result_outcome :
  overall_status sample_result = Some "pass"
  /\ labels sample_result = Some ["duplicate-feed"]
  /\ get_field (default ∅ (validations sample_result)) "content" python_score 0 = 66.
Proof. vm_compute. repeat split. Qed.

Example quote_url :
  FormatComment.quote "https://example.com/feed.xml?a=b c"
  = "https%3A%2F%2Fexample.com%2Ffeed.xml%3Fa%3Db%20c".
Proof. reflexivity. Qed.

Example get_labels_sample :
  GetLabels.main sample_labels_world ["get_labels.py"; "result.json"]
  = {| exit_code := 0; written := Some "duplicate-feed" |}.
Proof. vm_compute. reflexivity. Qed.

End Examples.

(** * Further properties *)

(** ** The aggregator, case by case *)

Section AggregatorCases.
Import ValidateFeed.
Implicit Types validations : gmap string Validation.

Lemma has_critical_failure_false_iff validations :
  has_critical_failure validations = false <-> critical_passed validations.
Proof.
  unfold has_critical_failure, critical_passed. split.
  - intros H check Hin.
    destruct (get_field validations check passed false) eqn:E; [reflexivity|].
    assert (Ht : existsb (fun c => negb (get_field validations c passed false))
                         critical_checks = true).
    { apply existsb_exists. exists check. split; [exact Hin|]. now rewrite E. }
    congruence.
  - intros H.
    destruct (existsb _ critical_checks) eqn:E; [|reflexivity].
    apply existsb_exists in E as (check & Hin & Hneg).
    rewrite (H check Hin) in Hneg. discriminate Hneg.
Qed.

(** The status is decided by the critical checks and the content score. *)
Lemma status_of_cases validations :
  (status_of validations = "fail" <-> ~ critical_passed validations)
  /\ (status_of validations = "pass" <->
      critical_passed validations /\ 60 <= score_of validations)
  /\ (status_of validations = "warning" <->
      critical_passed validations /\ score_of validations < 60).
Proof.
  unfold status_of, score_of, determine_overall_status.
  destruct (has_critical_failure validations) eqn:Hc.
  - assert (Hn : ~ critical_passed validations).
    { intros Hp. apply has_critical_failure_false_iff in Hp. congruence. }
    simpl. repeat split; try (intros; discriminate); auto;
      intros [Hp _]; contradiction.
  - apply has_critical_failure_false_iff in Hc.
    destruct (get_field validations "duplicate" is_duplicate false);
      destruct (Z.ltb_spec (get_field validations "content" python_score 0) 30);
      destruct (Z.ltb_spec (get_field validations "content" python_score 0) 60);
      simpl; try lia;
      repeat split; try (intros; discriminate); try tauto; try lia;
      try (intros [_ ?]; lia); try (intros ?; exfalso; tauto).
Qed.

(** X1: the aggregator answers one of five pairs of status and labels.
    The labels name the status: 'validation-failed' is a label exactly
    when the status is 'fail', 'validation-warning' exactly when it is
    'warning', and 'validation-passed' only when it is 'pass'; no label is
    given twice and there are one or two of them. *)
Theorem aggregator_labels_name_status validations :
  In (status_of validations, labels_of validations) aggregator_answers
  /\ (In "validation-failed" (labels_of validations) <->
      status_of validations = "fail")
  /\ (In "validation-warning" (labels_of validations) <->
      status_of validations = "warning")
  /\ (In "validation-passed" (labels_of validations) ->
      status_of validations = "pass")
  /\ List.NoDup (labels_of validations)
  /\ (1 <= List.length (labels_of validations) <= 2)%nat.
Proof.
  assert (Hcases : forall answer,
            In answer aggregator_answers ->
            (In "validation-failed" answer.2 <-> answer.1 = "fail")
            /\ (In "validation-warning" answer.2 <-> answer.1 = "warning")
            /\ (In "validation-passed" answer.2 -> answer.1 = "pass")
            /\ List.NoDup answer.2
            /\ (1 <= List.length answer.2 <= 2)%nat).
  { intros answer Hin. simpl in Hin.
    destruct Hin as [<-|[<-|[<-|[<-|[<-|[]]]]]]; simpl;
      repeat split; try lia; try reflexivity;
      try (intros H; repeat destruct H as [H|H]; congruence);
      try discriminate;
      try (repeat constructor; simpl; intuition discriminate);
      auto. }
  assert (Hin : In (status_of validations, labels_of validations)
                   aggregator_answers).
  { unfold status_of, labels_of, determine_overall_status.
    destruct (has_critical_failure validations); [simpl; auto|].
    destruct (get_field validations "duplicate" is_duplicate false);
      destruct (get_field validations "content" python_score 0 <? 30);
      destruct (get_field validations "content" python_score 0 <? 60);
      simpl; auto 6. }
  split; [exact Hin|]. exact (Hcases _ Hin).
Qed.

(** X2: the recommendations follow the labels: one sentence for a failed
    submission, one for a duplicate, two for a score below 30 and one for
    a score from 30 to 59; a submission gets no recommendation exactly
    when its only label is 'validation-passed', and never more than
    three. *)
Theorem aggregator_recommendations validations :
  List.length (recommendations_of validations) =
    (if has_critical_failure validations then 1
     else (if get_field validations "duplicate" is_duplicate false then 1 else 0)
          + (if (score_of validations <? 30)%Z then 2
             else if (score_of validations <? 60)%Z then 1 else 0))%nat
  /\ (recommendations_of validations = [] <->
      labels_of validations = ["validation-passed"])
  /\ (List.length (recommendations_of validations) <= 3)%nat.
Proof.
  unfold recommendations_of, labels_of, score_of, determine_overall_status.
  destruct (has_critical_failure validations);
    [simpl; repeat split; try discriminate; lia|].
  destruct (get_field validations "duplicate" is_duplicate false);
    destruct (get_field validations "content" python_score 0 <? 30);
    destruct (get_field validations "content" python_score 0 <? 60);
    simpl; repeat split; try discriminate; try lia.
Qed.

End AggregatorCases.

(** ** The content analysis beyond the score *)

Section ContentAnalysis.
Import ValidateFeed.

Lemma take_nonempty n s : s <> EmptyString -> take (S n) s <> EmptyString.
Proof.
  destruct s as [|c s]; [contradiction|]. intros _. simpl.
  destruct (is_continuation c); discriminate.
Qed.

Lemma take_code_points s : forall n, (code_points (take n s) <= n)%nat.
Proof.
  induction s as [|c s IH]; intros n; simpl; [lia|].
  destruct (is_continuation c) eqn:Hc.
  - simpl. rewrite Hc. apply IH.
  - destruct n as [|n]; simpl; [lia|]. rewrite Hc. specialize (IH n). lia.
Qed.

Lemma truthy_true s : truthy s = true <-> s <> EmptyString.
Proof. destruct s; simpl; split; congruence. Qed.

(** The titles collected by the loop, from any state with at most five
    titles: those already there, then as many displayable titles of the
    sample as fit. *)
Lemma fold_analyze_titles sample : forall python_count sample_titles,
  (List.length sample_titles <= 5)%nat ->
  (fold_left analyze_entry sample (python_count, sample_titles)).2 =
  sample_titles ++
  firstn (5 - List.length sample_titles)
    (map (take 100)
       (List.filter truthy
          (map (fun entry => default EmptyString (entry_title entry)) sample))).
Proof.
  induction sample as [|entry sample IH]; intros python_count sample_titles Hlen.
  - simpl. rewrite firstn_nil. now rewrite app_nil_r.
  - cbn [fold_left map List.filter]. unfold analyze_entry at 2.
    destruct (truthy (default EmptyString (entry_title entry))) eqn:Ht.
    + destruct (Nat.ltb_spec (List.length sample_titles) 5) as [Hlt|Hge].
      * cbn [andb]. rewrite IH by (rewrite length_app; simpl; lia).
        rewrite length_app. cbn [List.length map].
        replace (5 - List.length sample_titles)%nat
          with (S (5 - (List.length sample_titles + 1)))%nat by lia.
        cbn [firstn]. now rewrite <- app_assoc.
      * cbn [andb]. rewrite IH by lia.
        replace (5 - List.length sample_titles)%nat with O by lia.
        reflexivity.
    + cbn [andb]. now rewrite IH by lia.
Qed.

Lemma in_firstn {A} (x : A) n : forall l, In x (firstn n l) -> In x l.
Proof.
  induction n as [|n IH]; intros [|y l]; simpl; try tauto.
  intros [->|H]; [now left|right; now apply IH].
Qed.

Lemma shown_titles_displayable sample :
  (List.length (shown_titles sample) <= 5)%nat
  /\ Forall displayable (shown_titles sample).
Proof.
  unfold shown_titles. split.
  - rewrite length_firstn. lia.
  - apply List.Forall_forall. intros title Hin.
    apply in_firstn in Hin. apply in_map_iff in Hin as (full & <- & Hfull).
    apply filter_In in Hfull as [_ Ht]. apply truthy_true in Ht.
    split; [now apply take_nonempty|apply take_code_points].
Qed.

Lemma analyze_feed_content_titles w call url sample_size :
  (analyze_feed_content w call url sample_size).1.2 = []
  \/ exists feed all_entries,
       feedparser_parse w call url = FeedParsed feed
       /\ feed_entries feed = Some all_entries
       /\ (analyze_feed_content w call url sample_size).1.2
          = shown_titles (slice_to sample_size all_entries).
Proof.
  unfold analyze_feed_content, analyze_feed_content_try.
  destruct (feedparser_parse w call url) as [feed|msg] eqn:Hparse; [|now left].
  destruct (bozo feed); [now left|].
  destruct (feed_entries feed) as [all_entries|] eqn:Hentries; [|now left].
  destruct (slice_to sample_size all_entries) as [|entry rest] eqn:Hsample;
    [now left|].
  destruct (fold_left analyze_entry (entry :: rest) (O, []))
    as [python_count titles] eqn:Hfold.
  destruct (percentage python_count (List.length (entry :: rest))) as [e|z];
    [now left|].
  right. exists feed, all_entries.
  split; [reflexivity|]. split; [exact Hentries|].
  pose proof (fold_analyze_titles (entry :: rest) O []) as Ht.
  rewrite Hfold in Ht. rewrite Hsample. simpl.
  simpl in Ht. rewrite Ht by lia. reflexivity.
Qed.

(** X3: whatever the feed, the content analysis returns at most five
    sample titles, none of them empty and none longer than 100 characters
    (code points, as the slice [title[:100]] counts them).
    When the feed parses and the sample holds between 1 and 49 entries,
    they are the first five non-empty titles of the sample, in feed order,
    each cut to its first 100 characters. *)
Theorem content_sample_titles w call url sample_size :
  ((List.length (analyze_feed_content w call url sample_size).1.2 <= 5)%nat
   /\ Forall displayable (analyze_feed_content w call url sample_size).1.2)
  /\ (forall feed all_entries,
        feedparser_parse w call url = FeedParsed feed ->
        bozo feed = false ->
        feed_entries feed = Some all_entries ->
        (0 < List.length (slice_to sample_size all_entries) < 50)%nat ->
        (analyze_feed_content w call url sample_size).1.2
        = shown_titles (slice_to sample_size all_entries)).
Proof.
  split.
  - destruct (analyze_feed_content_titles w call url sample_size)
      as [->|(feed & all_entries & _ & _ & ->)].
    + split; [simpl; lia|constructor].
    + apply shown_titles_displayable.
  - intros feed all_entries Hparse Hbozo Hentries Hlen.
    unfold analyze_feed_content, analyze_feed_content_try.
    rewrite Hparse, Hbozo, Hentries.
    destruct (slice_to sample_size all_entries) as [|entry rest] eqn:Hsample;
      [simpl in Hlen; lia|].
    destruct (fold_left analyze_entry (entry :: rest) (O, []))
      as [python_count titles] eqn:Hfold.
    pose proof (fold_analyze_count (entry :: rest) (O, [])) as Hc.
    assert (Htitles : titles = shown_titles (entry :: rest)).
    { pose proof (fold_analyze_titles (entry :: rest) O []
                    ltac:(simpl; lia)) as Ht.
      rewrite Hfold in Ht. exact Ht. }
    rewrite Hfold in Hc. simpl in Hc. subst python_count.
    rewrite (percentage_truncates _ _ Hlen (matching_le_length (entry :: rest))).
    simpl. exact Htitles.
Qed.

Lemma content_sample_titles_witness :
  (analyze_feed_content sixty_entries_world 1 "https://example.com/atom.xml" 10).1.2
  = repeat (take 100 long_title) 5.
Proof.
  rewrite (proj2 (content_sample_titles sixty_entries_world 1
                    "https://example.com/atom.xml" 10)
             sixty_entries_feed sixty_entries eq_refl).
  - vm_compute. reflexivity.
  - reflexivity.
  - reflexivity.
  - vm_compute. lia.
Defined.

(** X4: the content analysis warns exactly when the score is below 60,
    with one warning, whatever happened on the way (parse failure, empty
    sample, exception): the warning list is empty if and only if the score
    is at least 60. *)
Theorem content_warning_iff_low_score w call url sample_size :
  let r := analyze_feed_content w call url sample_size in
  (r.2 = [] <-> 60 <= r.1.1.1) /\ (List.length r.2 <= 1)%nat.
Proof.
  unfold analyze_feed_content, analyze_feed_content_try.
  destruct (feedparser_parse w call url) as [feed|msg];
    [|simpl; split; [split; [discriminate|lia]|lia]].
  destruct (bozo feed); [simpl; split; [split; [discriminate|lia]|lia]|].
  destruct (feed_entries feed) as [all_entries|];
    [|simpl; split; [split; [discriminate|lia]|lia]].
  destruct (slice_to sample_size all_entries) as [|entry rest];
    [simpl; split; [split; [discriminate|lia]|lia]|].
  destruct (fold_left analyze_entry (entry :: rest) (O, []))
    as [python_count titles].
  destruct (percentage python_count (List.length (entry :: rest))) as [e|z];
    [simpl; split; [split; [discriminate|lia]|lia]|].
  simpl.
  destruct (Z.ltb_spec z 30); [split; [split; [discriminate|lia]|simpl; lia]|].
  destruct (Z.ltb_spec z 60); [split; [split; [discriminate|lia]|simpl; lia]|].
  split; [split; [lia|reflexivity]|simpl; lia].
Qed.

Lemma slice_to_length {A} (k : Z) (l : list A) :
  0 <= k -> (List.length (slice_to k l) <= Z.to_nat k)%nat.
Proof.
  intros Hk. unfold slice_to.
  destruct (Z.leb_spec 0 k); [|lia]. rewrite length_firstn. lia.
Qed.

(** X5: with a sample size from 0 to 49 (the pipeline uses 10) and a feed
    that parses with a non-empty sample, the score is the truncated
    percentage of matching entries of the sample, whatever the length of
    the feed; it lies between 0 and 100, is 100 exactly when every sampled
    entry matches a keyword and 0 exactly when none does. *)
Theorem content_score_range w call url sample_size feed all_entries :
  0 <= sample_size < 50 ->
  feedparser_parse w call url = FeedParsed feed ->
  bozo feed = false ->
  feed_entries feed = Some all_entries ->
  slice_to sample_size all_entries <> [] ->
  let sample := slice_to sample_size all_entries in
  let score := (analyze_feed_content w call url sample_size).1.1.1 in
  score = 100 * Z.of_nat (matching sample) / Z.of_nat (List.length sample)
  /\ 0 <= score <= 100
  /\ (score = 100 <-> matching sample = List.length sample)
  /\ (score = 0 <-> matching sample = O).
Proof.
  intros Hsize Hparse Hbozo Hentries Hne. cbv zeta.
  pose proof (slice_to_length sample_size all_entries (proj1 Hsize)) as Hle.
  assert (Hscore :
    (analyze_feed_content w call url sample_size).1.1.1 =
    100 * Z.of_nat (matching (slice_to sample_size all_entries))
    / Z.of_nat (List.length (slice_to sample_size all_entries))).
  { unfold analyze_feed_content, analyze_feed_content_try.
    rewrite Hparse, Hbozo, Hentries.
    destruct (slice_to sample_size all_entries) as [|entry rest] eqn:Hs;
      [contradiction|].
    destruct (fold_left analyze_entry (entry :: rest) (O, []))
      as [python_count titles] eqn:Hfold.
    pose proof (fold_analyze_count (entry :: rest) (O, [])) as Hc.
    rewrite Hfold in Hc. simpl in Hc. subst python_count.
    rewrite (percentage_truncates (matching (entry :: rest))
               (List.length (entry :: rest)));
      [reflexivity|simpl in *; lia|apply matching_le_length]. }
  rewrite Hscore. split; [reflexivity|].
  pose proof (matching_le_length (slice_to sample_size all_entries)) as Hm.
  assert (Hpos : (0 < List.length (slice_to sample_size all_entries))%nat).
  { destruct (slice_to sample_size all_entries); [contradiction|simpl; lia]. }
  set (m := matching (slice_to sample_size all_entries)) in *.
  set (n := List.length (slice_to sample_size all_entries)) in *.
  assert (Hq : m = n -> 100 * Z.of_nat m / Z.of_nat n = 100).
  { intros Heq. rewrite Heq. apply Z.div_mul. lia. }
  repeat split.
  - apply Z.div_pos; lia.
  - apply Z.div_le_upper_bound; nia.
  - intros Heq. destruct (Nat.eq_dec m n); [assumption|].
    assert (100 * Z.of_nat m / Z.of_nat n < 100)
      by (apply Z.div_lt_upper_bound; nia).
    lia.
  - exact Hq.
  - intros Heq. destruct (Nat.eq_dec m O) as [|Hnz]; [assumption|].
    assert (1 <= 100 * Z.of_nat m / Z.of_nat n)
      by (apply Z.div_le_lower_bound; nia).
    lia.
  - intros Heq. rewrite Heq. reflexivity.
Qed.

Lemma content_score_range_witness :
  let sample := slice_to 10 sixty_entries in
  let score :=
    (analyze_feed_content sixty_entries_world 1 "https://example.com/atom.xml" 10).1.1.1 in
  score = 100 * Z.of_nat (matching sample) / Z.of_nat (List.length sample)
  /\ 0 <= score <= 100
  /\ (score = 100 <-> matching sample = List.length sample)
  /\ (score = 0 <-> matching sample = O).
Proof.
  apply (content_score_range sixty_entries_world 1 "https://example.com/atom.xml" 10
           sixty_entries_feed sixty_entries).
  - lia.
  - reflexivity.
  - reflexivity.
  - reflexivity.
  - vm_compute. discriminate.
Defined.

(** X6: on samples of the same length below 50, more matching entries
    never give a lower score. *)
Theorem percentage_monotone m m' n :
  (0 < n < 50)%nat -> (m <= m')%nat -> (m' <= n)%nat ->
  exists score score',
    percentage m n = inr score /\ percentage m' n = inr score'
    /\ score <= score'.
Proof.
  intros Hn Hm Hm'.
  exists (100 * Z.of_nat m / Z.of_nat n), (100 * Z.of_nat m' / Z.of_nat n).
  rewrite !percentage_truncates by lia.
  repeat split. apply Z.div_le_mono; lia.
Qed.

Lemma percentage_monotone_witness :
  exists score score',
    percentage 3 10 = inr score /\ percentage 6 10 = inr score'
    /\ score <= score'.
Proof. apply (percentage_monotone 3 6 10); lia. Defined.

End ContentAnalysis.

(** ** The duplicate check, in full *)

Section DuplicateVerdict.
Import ValidateFeed.

Lemma find_duplicate_readable normalized_new sections lookup :
  names_readable sections ->
  find_duplicate normalized_new sections = Some lookup ->
  exists name, config_get_name lookup = inr name.
Proof.
  intros Hreadable E.
  destruct (find_duplicate_Some _ _ _ E) as (section & Hin & _).
  destruct lookup as [name| |msg]; simpl; eauto.
  exfalso. exact (Hreadable _ _ Hin).
Qed.

(** X7: when the registry reads, the duplicate check reports a duplicate
    only for a registered URL, and fails for every registered URL of a
    request that is not an edit.  When moreover no name lookup raises, its
    verdict is decided by whether the URL and the old URL are registered:
    the feed is reported as a duplicate, with the name of an entry,
    exactly when the URL is registered; the check fails exactly when the
    URL is registered and the request is not an edit, or the URL is not
    registered, the request is an edit and a non-empty old URL is not
    registered. *)
Theorem duplicate_verdict w url config_path request_type old_url sections :
  config_read w config_path = ConfigSections sections ->
  let r := check_duplicate_in_config w url config_path request_type old_url in
  (r.1.1.2 = true -> registered url sections)
  /\ (is_Some r.1.2 -> registered url sections)
  /\ (registered url sections -> is_edit request_type = false ->
      r.1.1.1 = false)
  /\ (names_readable sections ->
      (r.1.1.2 = true <-> registered url sections)
      /\ (is_Some r.1.2 <-> registered url sections)
      /\ (r.1.1.1 = false <->
          (registered url sections /\ is_edit request_type = false)
          \/ (~ registered url sections /\ is_edit request_type = true
              /\ exists old, old_url = Some old /\ old <> EmptyString
                             /\ ~ registered old sections))).
Proof.
  intros Hread. cbv zeta. unfold check_duplicate_in_config. rewrite Hread.
  destruct (find_duplicate (normalize_url url) sections) as [lookup|] eqn:E.
  - assert (Hreg : registered url sections)
      by (apply find_duplicate_registered; eauto).
    split; [auto|]. split; [auto|]. split.
    + intros _ Hedit. rewrite Hedit.
      destruct (config_get_name lookup); reflexivity.
    + intros Hreadable.
      destruct (find_duplicate_readable _ _ _ Hreadable E) as [name ->].
      destruct (is_edit request_type); simpl;
        (split; [tauto|]); (split; [split; eauto|]).
      * split; [discriminate|].
        intros [[_ H]|[H _]]; [discriminate|contradiction].
      * split; [|reflexivity]. intros _. left. auto.
  - assert (Hreg : ~ registered url sections).
    { intros H. apply find_duplicate_registered in H as [n H]. congruence. }
    assert (Hverdict :
      forall r : bool * bool * option string * string,
        r.1.1.2 = false -> r.1.2 = None ->
        (r.1.1.1 = false <->
         is_edit request_type = true
         /\ exists old, old_url = Some old /\ old <> EmptyString
                        /\ ~ registered old sections) ->
        (r.1.1.2 = true -> registered url sections)
        /\ (is_Some r.1.2 -> registered url sections)
        /\ (registered url sections -> is_edit request_type = false ->
            r.1.1.1 = false)
        /\ (names_readable sections ->
            (r.1.1.2 = true <-> registered url sections)
            /\ (is_Some r.1.2 <-> registered url sections)
            /\ (r.1.1.1 = false <->
                (registered url sections /\ is_edit request_type = false)
                \/ (~ registered url sections /\ is_edit request_type = true
                    /\ exists old, old_url = Some old /\ old <> EmptyString
                                   /\ ~ registered old sections)))).
    { intros r Hdup Hname Hpassed. rewrite Hdup, Hname.
      assert (Hsome : ~ is_Some (@None string)) by (intros [? ?]; discriminate).
      split; [discriminate|]. split; [tauto|]. split; [tauto|]. intros _.
      split; [split; [discriminate|tauto]|]. split; [tauto|].
      rewrite Hpassed. tauto. }
    destruct old_url as [old|].
    + destruct (is_edit request_type) eqn:Hedit; cbn [andb negb].
      * destruct (truthy old) eqn:Ht; cbn [andb negb].
        -- destruct (old_found (normalize_url old) sections) eqn:Ef;
             cbn [andb negb]; apply Hverdict; try reflexivity; simpl.
           ++ split; [discriminate|].
              intros (_ & o & [= <-] & _ & Hn).
              exfalso. apply Hn. now apply old_found_registered.
           ++ split; [|reflexivity]. intros _. split; [reflexivity|].
              exists old. repeat split; [now apply truthy_true|].
              intros Hr. apply old_found_registered in Hr. congruence.
        -- apply Hverdict; try reflexivity; simpl.
           split; [discriminate|].
           intros (_ & o & [= <-] & Hne & _).
           apply truthy_true in Hne. congruence.
      * apply Hverdict; try reflexivity; simpl.
        split; [discriminate|]. intros (H & _). discriminate H.
    + apply Hverdict; try reflexivity; simpl.
      split; [discriminate|]. intros (_ & o & H & _). discriminate H.
Qed.

Lemma duplicate_verdict_witness :
  let r := check_duplicate_in_config sample_world "http://FOO.com/feed/"
             "config.ini" "Add new feed" None in
  (r.1.1.2 = true <-> registered "http://FOO.com/feed/" sample_sections)
  /\ (is_Some r.1.2 <-> registered "http://FOO.com/feed/" sample_sections)
  /\ (r.1.1.1 = false <->
      (registered "http://FOO.com/feed/" sample_sections
       /\ is_edit "Add new feed" = false)
      \/ (~ registered "http://FOO.com/feed/" sample_sections
          /\ is_edit "Add new feed" = true
          /\ exists old, None = Some old /\ old <> EmptyString
                         /\ ~ registered old sample_sections)).
Proof.
  apply (duplicate_verdict sample_world "http://FOO.com/feed/" "config.ini"
           "Add new feed" None sample_sections).
  - reflexivity.
  - intros section msg [H|[H|[]]]; discriminate H.
Defined.

Lemma find_duplicate_feed_sections normalized_new sections :
  find_duplicate normalized_new (List.filter is_feed_section sections)
  = find_duplicate normalized_new sections.
Proof.
  induction sections as [|[section name] rest IH]; [reflexivity|].
  cbn [List.filter]. unfold is_feed_section at 1. cbn [fst].
  destruct (String.eqb section "Planet") eqn:Hp; cbn [negb].
  - simpl. now rewrite Hp.
  - simpl. rewrite Hp, IH. reflexivity.
Qed.

Lemma old_found_feed_sections normalized_old sections :
  old_found normalized_old (List.filter is_feed_section sections)
  = old_found normalized_old sections.
Proof.
  induction sections as [|[section name] rest IH]; [reflexivity|].
  cbn [List.filter]. unfold is_feed_section at 1. cbn [fst].
  destruct (String.eqb section "Planet") eqn:Hp; cbn [negb].
  - simpl. now rewrite Hp.
  - simpl. rewrite Hp, IH. reflexivity.
Qed.

(** X8: the reserved section 'Planet' never counts as a feed: a registry
    and the same registry without its 'Planet' sections give the same
    answer to every duplicate check. *)
Theorem reserved_section_ignored
    w w' url config_path request_type old_url sections :
  config_read w config_path = ConfigSections sections ->
  config_read w' config_path =
    ConfigSections (List.filter is_feed_section sections) ->
  check_duplicate_in_config w' url config_path request_type old_url
  = check_duplicate_in_config w url config_path request_type old_url.
Proof.
  intros Hread Hread'. unfold check_duplicate_in_config.
  rewrite Hread, Hread', find_duplicate_feed_sections.
  destruct (find_duplicate (normalize_url url) sections); [reflexivity|].
  destruct old_url as [old|]; [|reflexivity].
  now rewrite old_found_feed_sections.
Qed.

Lemma reserved_section_ignored_witness :
  check_duplicate_in_config
    (world_with_sections [("http://foo.com/feed", NameValue "Foo")])
    "Planet/" "config.ini" "Add new feed" None
  = check_duplicate_in_config sample_world
      "Planet/" "config.ini" "Add new feed" None.
Proof.
  apply (reserved_section_ignored sample_world
           (world_with_sections [("http://foo.com/feed", NameValue "Foo")])
           "Planet/" "config.ini" "Add new feed" None sample_sections);
    reflexivity.
Defined.

End DuplicateVerdict.

(** ** The pipeline, end to end *)

Section PipelineVerdict.
Import ValidateFeed.

(** The duplicate flag of the check against the registry. *)
Lemma duplicate_found w url config_path request_type old_url sections :
  config_read w config_path = ConfigSections sections ->
  ((check_duplicate_in_config w url config_path request_type old_url).1.1.2
   = true -> registered url sections)
  /\ (names_readable sections -> registered url sections ->
      (check_duplicate_in_config w url config_path request_type old_url).1.1.2
      = true).
Proof.
  intros Hread. unfold check_duplicate_in_config. rewrite Hread.
  destruct (find_duplicate (normalize_url url) sections) as [lookup|] eqn:E.
  - split.
    + intros _. apply find_duplicate_registered. eauto.
    + intros Hreadable _.
      destruct (find_duplicate_readable _ _ _ Hreadable E) as [name ->].
      now destruct (is_edit request_type).
  - assert (Hreg : ~ registered url sections).
    { intros H. apply find_duplicate_registered in H as [n H]. congruence. }
    split; [|tauto].
    destruct old_url as [old|]; [destruct (_ && _)|]; simpl; discriminate.
Qed.

(** *** The verdict of each critical validator *)

Lemma validate_url_format_true w url :
  (validate_url_format w url).1 = true <-> url_ok w url.
Proof.
  unfold validate_url_format, url_ok.
  destruct (urlparse w url) as [scheme netloc|msg];
    [|simpl; split; [discriminate|intros (s & n & H & _); discriminate H]].
  destruct (truthy scheme) eqn:Hts; simpl;
    [|split; [discriminate|];
      intros (s & n & [= <- <-] & [H|H] & _); subst scheme; discriminate Hts].
  destruct (String.eqb_spec scheme "http") as [Hh|Hh];
    destruct (String.eqb_spec scheme "https") as [Hs|Hs]; simpl;
    try (split; [discriminate|];
         intros (s & n & [= <- <-] & [H|H] & _); contradiction);
    (destruct (truthy netloc) eqn:Htn; simpl;
     [split; [intros _; exists scheme, netloc;
              split; [reflexivity|split; [auto|now apply truthy_true]]
             |reflexivity]
     |split; [discriminate|];
      intros (s & n & [= <- <-] & _ & Hn);
      apply truthy_true in Hn; congruence]).
Qed.

Lemma check_feed_accessibility_true w url :
  (check_feed_accessibility w url 10).1.1.1 = true <-> reachable w url.
Proof.
  unfold check_feed_accessibility, reachable.
  destruct (requests_get w url 10) as [code final| | | |msg];
    try (simpl; split; [discriminate|intros [f H]; discriminate H]).
  destruct (Z.eqb_spec code 200) as [->|Hne]; simpl.
  - split; eauto.
  - split; [discriminate|]. intros [f [= H _]]. contradiction.
Qed.

Lemma validate_feed_structure_true w url :
  (validate_feed_structure w 0 url).1.1.1 = true <-> well_formed w url.
Proof.
  unfold validate_feed_structure, well_formed.
  destruct (feedparser_parse w 0 url) as [feed|msg];
    [|simpl; split; [discriminate|intros (f & v & es & H & _); discriminate H]].
  destruct (bozo feed) eqn:Hb;
    [simpl; split; [discriminate
                   |intros (f & v & es & [= <-] & H & _); congruence]|].
  destruct (version feed) as [v|] eqn:Hv;
    [|simpl; split; [discriminate
                    |intros (f & v & es & [= <-] & _ & H & _); congruence]].
  destruct v as [|c v];
    [simpl; split; [discriminate
                   |intros (f & v' & es & [= <-] & _ & H & Hne & _); congruence]|].
  simpl negb. cbv iota.
  destruct (feed_entries feed) as [[|entry rest]|] eqn:He; simpl.
  - split; [discriminate|].
    intros (f & v' & es & [= <-] & _ & _ & _ & H & Hne). congruence.
  - split; [|reflexivity]. intros _.
    exists feed, (String c v), (entry :: rest). repeat split; auto; discriminate.
  - split; [discriminate|].
    intros (f & v' & es & [= <-] & _ & _ & _ & H & _). congruence.
Qed.

(** *** What [main] hands to the aggregator *)

Lemma main_result_aggregate w args url :
  parse_issue_body (issue_body args) !! "feed-url" = Some url ->
  let vals := run_validations w args url (request_of (issue_body args))
                (old_url_of (issue_body args)) in
  success (main_result w args) = Some true
  /\ validations (main_result w args) = Some vals
  /\ overall_status (main_result w args) = Some (status_of vals)
  /\ labels (main_result w args) = Some (labels_of vals)
  /\ recommendations (main_result w args) = Some (recommendations_of vals).
Proof.
  intros Hurl. cbv zeta. unfold main_result, request_of, old_url_of.
  rewrite Hurl. simpl default.
  rewrite (truthy_nonempty url (parse_issue_body_nonempty _ _ _ Hurl)). simpl negb.
  cbv iota. unfold status_of, labels_of, recommendations_of.
  now destruct (determine_overall_status _) as [[status labs] recs].
Qed.

Lemma run_validations_fields w args url request old :
  let vals := run_validations w args url request old in
  let url_valid := (validate_url_format w url).1 in
  let accessible := url_valid && (check_feed_accessibility w url 10).1.1.1 in
  let structured := accessible && (validate_feed_structure w 0 url).1.1.1 in
  get_field vals "url_format" passed false = url_valid
  /\ get_field vals "accessibility" passed false = accessible
  /\ get_field vals "structure" passed false = structured
  /\ get_field vals "duplicate" is_duplicate false
     = (check_duplicate_in_config w url (config_path args) request old).1.1.2
  /\ score_of vals
     = if structured then (analyze_feed_content w 1 url 10).1.1.1 else 0.
Proof.
  cbv zeta. unfold score_of, get_field.
  destruct (run_validations_lookup w args url request old)
    as (Hu & Ha & Hs & Hd & Hc).
  rewrite Hu, Ha, Hs, Hd, Hc. simpl default.
  unfold url_format_entry, accessibility_entry, structure_entry,
    duplicate_entry, content_entry.
  destruct (validate_url_format w url) as [url_valid url_msg]. simpl.
  destruct (check_duplicate_in_config w url (config_path args) request old)
    as [[[dup_passed is_dup] name] dup_msg]. simpl.
  destruct url_valid; simpl; [|repeat split].
  destruct (check_feed_accessibility w url 10)
    as [[[accessible code] final] access_msg]. simpl.
  destruct accessible; simpl; [|repeat split].
  destruct (validate_feed_structure w 0 url)
    as [[[struct_valid ftype] entry_count] struct_msg]. simpl.
  destruct struct_valid; simpl; [|repeat split].
  destruct (analyze_feed_content w 1 url 10) as [[[score lang] titles] warns].
  repeat split.
Qed.

Lemma critical_passed_iff w args url request old :
  critical_passed (run_validations w args url request old) <->
  url_ok w url /\ reachable w url /\ well_formed w url.
Proof.
  destruct (run_validations_fields w args url request old)
    as (Hu & Ha & Hs & _).
  rewrite <- validate_url_format_true, <- check_feed_accessibility_true,
    <- validate_feed_structure_true.
  unfold critical_passed, critical_checks. split.
  - intros H.
    pose proof (H "url_format" ltac:(simpl; auto)) as H1.
    pose proof (H "accessibility" ltac:(simpl; auto)) as H2.
    pose proof (H "structure" ltac:(simpl; auto)) as H3.
    rewrite Hu in H1. rewrite Ha, H1 in H2. rewrite Hs, H1 in H3.
    simpl in H2, H3. rewrite H2 in H3. simpl in H3. auto.
  - intros (H1 & H2 & H3) check [<-|[<-|[<-|[]]]].
    + now rewrite Hu.
    + now rewrite Ha, H1, H2.
    + now rewrite Hs, H1, H2, H3.
Qed.

(** X9: a submission with a feed URL passes exactly when the URL parses
    with scheme http or https and a host, the request is answered with
    status 200, the feed parses cleanly with a detected format and at
    least one entry, and the content score is at least 60; it fails
    exactly when one of the first three conditions does not hold.  The
    outcome of the duplicate check has no part in the overall status. *)
Theorem overall_status_decided w args url :
  parse_issue_body (issue_body args) !! "feed-url" = Some url ->
  (overall_status (main_result w args) = Some "pass" <->
   url_ok w url /\ reachable w url /\ well_formed w url
   /\ 60 <= (analyze_feed_content w 1 url 10).1.1.1)
  /\ (overall_status (main_result w args) = Some "fail" <->
      ~ (url_ok w url /\ reachable w url /\ well_formed w url)).
Proof.
  intros Hurl.
  destruct (main_result_aggregate w args url Hurl) as (_ & _ & Hstatus & _).
  rewrite Hstatus.
  set (vals := run_validations w args url (request_of (issue_body args))
                 (old_url_of (issue_body args))).
  pose proof (critical_passed_iff w args url (request_of (issue_body args))
                (old_url_of (issue_body args))) as Hcrit. fold vals in Hcrit.
  destruct (run_validations_fields w args url (request_of (issue_body args))
              (old_url_of (issue_body args))) as (Hu & Ha & Hs & _ & Hscore).
  fold vals in Hu, Ha, Hs, Hscore.
  destruct (status_of_cases vals) as (Hfail & Hpass & _).
  split.
  - split.
    + intros [= Hp]. apply Hpass in Hp as [Hc Hsc].
      pose proof Hc as Hc'. apply Hcrit in Hc as (H1 & H2 & H3).
      repeat split; try assumption.
      rewrite Hscore in Hsc.
      apply validate_url_format_true in H1.
      apply check_feed_accessibility_true in H2.
      apply validate_feed_structure_true in H3.
      now rewrite H1, H2, H3 in Hsc.
    + intros (H1 & H2 & H3 & Hsc). f_equal. apply Hpass. split.
      * apply Hcrit. auto.
      * rewrite Hscore.
        apply validate_url_format_true in H1.
        apply check_feed_accessibility_true in H2.
        apply validate_feed_structure_true in H3.
        now rewrite H1, H2, H3.
  - rewrite <- Hcrit. split.
    + intros [= Hf]. now apply Hfail.
    + intros Hn. f_equal. now apply Hfail.
Qed.

Lemma overall_status_decided_witness :
  (overall_status sample_result = Some "pass" <->
   url_ok sample_world "HTTP://Foo.com/Feed/"
   /\ reachable sample_world "HTTP://Foo.com/Feed/"
   /\ well_formed sample_world "HTTP://Foo.com/Feed/"
   /\ 60 <= (analyze_feed_content sample_world 1 "HTTP://Foo.com/Feed/" 10).1.1.1)
  /\ (overall_status sample_result = Some "fail" <->
      ~ (url_ok sample_world "HTTP://Foo.com/Feed/"
         /\ reachable sample_world "HTTP://Foo.com/Feed/"
         /\ well_formed sample_world "HTTP://Foo.com/Feed/")).
Proof.
  apply (overall_status_decided sample_world
           (sample_args issue_without_request_type) "HTTP://Foo.com/Feed/").
  vm_compute. reflexivity.
Defined.

(** X10: a submission is unsuccessful exactly when no feed URL was
    extracted from the issue; its result is then the same in every world
    (no library is consulted): status 'fail', the single label
    'validation-failed' and one recommendation. *)
Theorem missing_feed_url_fails w args :
  (success (main_result w args) = Some false <->
   parse_issue_body (issue_body args) !! "feed-url" = None)
  /\ (parse_issue_body (issue_body args) !! "feed-url" = None ->
      overall_status (main_result w args) = Some "fail"
      /\ labels (main_result w args) = Some ["validation-failed"]
      /\ recommendations (main_result w args) =
           Some ["Please ensure the feed URL field is filled in the issue template"]
      /\ forall w', main_result w' args = main_result w args).
Proof.
  split; [split|].
  - intros Hs.
    destruct (parse_issue_body (issue_body args) !! "feed-url") as [url|] eqn:Hurl;
      [|reflexivity].
    destruct (main_result_aggregate w args url Hurl) as (Ht & _). congruence.
  - intros Hurl. unfold main_result. now rewrite Hurl.
  - intros Hurl. unfold main_result. rewrite Hurl. simpl. repeat split.
Qed.

Lemma missing_feed_url_fails_witness :
  overall_status (main_result offline_world (sample_args EmptyString)) = Some "fail"
  /\ labels (main_result offline_world (sample_args EmptyString))
     = Some ["validation-failed"]
  /\ recommendations (main_result offline_world (sample_args EmptyString)) =
       Some ["Please ensure the feed URL field is filled in the issue template"]
  /\ forall w', main_result w' (sample_args EmptyString)
                = main_result offline_world (sample_args EmptyString).
Proof.
  apply (missing_feed_url_fails offline_world (sample_args EmptyString)).
  reflexivity.
Defined.

(** X11: each library is consulted only when the checks before it passed.
    Two worlds give the same result when they agree on the parse of the
    URL and on the registry, on the request if the URL is well formed, on
    the first parse of the feed if moreover the request succeeds, and on
    the second parse if moreover the first finds a valid feed. *)
Theorem libraries_consulted_in_turn w w' args url :
  parse_issue_body (issue_body args) !! "feed-url" = Some url ->
  urlparse w url = urlparse w' url ->
  config_read w (config_path args) = config_read w' (config_path args) ->
  (url_ok w url -> requests_get w url 10 = requests_get w' url 10) ->
  (url_ok w url -> reachable w url ->
   feedparser_parse w 0 url = feedparser_parse w' 0 url) ->
  (url_ok w url -> reachable w url -> well_formed w url ->
   feedparser_parse w 1 url = feedparser_parse w' 1 url) ->
  main_result w' args = main_result w args.
Proof.
  intros Hurl Hparse Hconfig Hget Hfirst Hsecond.
  assert (Hvals : forall request old,
            run_validations w' args url request old
            = run_validations w args url request old).
  { intros request old. unfold run_validations.
    assert (Hu : validate_url_format w' url = validate_url_format w url)
      by (unfold validate_url_format; now rewrite Hparse).
    assert (Hd : duplicate_entry w' args url request old
                 = duplicate_entry w args url request old)
      by (unfold duplicate_entry, check_duplicate_in_config; now rewrite Hconfig).
    unfold url_format_entry. rewrite Hu, Hd.
    destruct (validate_url_format w url) as [url_valid url_msg] eqn:Ev.
    cbv zeta. simpl default.
    destruct url_valid; [|reflexivity].
    assert (Hok : url_ok w url)
      by (apply validate_url_format_true; now rewrite Ev).
    assert (Ha : check_feed_accessibility w' url 10
                 = check_feed_accessibility w url 10)
      by (unfold check_feed_accessibility; now rewrite (Hget Hok)).
    unfold accessibility_entry. rewrite Ha.
    destruct (check_feed_accessibility w url 10)
      as [[[accessible code] final] access_msg] eqn:Ea.
    unfold structure_entry. simpl default. simpl andb.
    destruct accessible; [|reflexivity].
    assert (Hreach : reachable w url)
      by (apply check_feed_accessibility_true; now rewrite Ea).
    assert (Hs : validate_feed_structure w' 0 url
                 = validate_feed_structure w 0 url)
      by (unfold validate_feed_structure; now rewrite (Hfirst Hok Hreach)).
    rewrite Hs.
    destruct (validate_feed_structure w 0 url)
      as [[[struct_valid ftype] entry_count] struct_msg] eqn:Es.
    unfold content_entry. simpl default.
    destruct struct_valid; [|reflexivity].
    assert (Hwf : well_formed w url)
      by (apply validate_feed_structure_true; now rewrite Es).
    assert (Hc : analyze_feed_content w' 1 url 10
                 = analyze_feed_content w 1 url 10)
      by (unfold analyze_feed_content, analyze_feed_content_try;
          now rewrite (Hsecond Hok Hreach Hwf)).
    now rewrite Hc. }
  unfold main_result. rewrite Hurl. simpl default.
  destruct (negb (truthy url)); [reflexivity|].
  now rewrite Hvals.
Qed.

Lemma libraries_consulted_in_turn_witness :
  main_result schemeless_offline_world (sample_args issue_without_request_type)
  = main_result schemeless_world (sample_args issue_without_request_type).
Proof.
  apply (libraries_consulted_in_turn schemeless_world schemeless_offline_world
           (sample_args issue_without_request_type) "HTTP://Foo.com/Feed/").
  - vm_compute. reflexivity.
  - reflexivity.
  - reflexivity.
  - intros (scheme & netloc & [= <- <-] & [H|H] & _); discriminate H.
  - intros (scheme & netloc & [= <- <-] & [H|H] & _); discriminate H.
  - intros (scheme & netloc & [= <- <-] & [H|H] & _); discriminate H.
Defined.

(** X12: a submission with a feed URL is labelled 'duplicate-feed' only
    when the three critical checks pass and the URL is registered, and,
    when no name lookup of the registry raises, exactly then; with a
    registry that cannot be read it never is.  A registered URL whose feed
    cannot be fetched is reported as failed, not as a duplicate. *)
Theorem duplicate_label_iff w args url :
  parse_issue_body (issue_body args) !! "feed-url" = Some url ->
  (forall sections,
     config_read w (config_path args) = ConfigSections sections ->
     forall labs, labels (main_result w args) = Some labs ->
     (In "duplicate-feed" labs ->
      (url_ok w url /\ reachable w url /\ well_formed w url)
      /\ registered url sections)
     /\ (names_readable sections ->
         (url_ok w url /\ reachable w url /\ well_formed w url)
         /\ registered url sections ->
         In "duplicate-feed" labs))
  /\ ((forall sections,
         config_read w (config_path args) <> ConfigSections sections) ->
      forall labs, labels (main_result w args) = Some labs ->
      ~ In "duplicate-feed" labs).
Proof.
  intros Hurl.
  destruct (main_result_aggregate w args url Hurl) as (_ & _ & _ & Hlabels & _).
  set (request := request_of (issue_body args)) in *.
  set (old := old_url_of (issue_body args)) in *.
  set (vals := run_validations w args url request old) in *.
  pose proof (critical_passed_iff w args url request old) as Hcrit.
  destruct (run_validations_fields w args url request old)
    as (_ & _ & _ & Hdup & _).
  fold vals in Hcrit, Hdup.
  assert (Hlab : In "duplicate-feed" (labels_of vals) <->
                 critical_passed vals
                 /\ get_field vals "duplicate" is_duplicate false = true).
  { unfold labels_of, determine_overall_status.
    destruct (has_critical_failure vals) eqn:Hc.
    - assert (Hn : ~ critical_passed vals).
      { intros Hp. apply has_critical_failure_false_iff in Hp. congruence. }
      simpl. split; [intros [H|[]]; discriminate H|tauto].
    - apply has_critical_failure_false_iff in Hc.
      destruct (get_field vals "duplicate" is_duplicate false);
        destruct (get_field vals "content" python_score 0 <? 30);
        destruct (get_field vals "content" python_score 0 <? 60);
        simpl; split; auto;
        try (intros [_ H]; discriminate H);
        intros H; repeat destruct H as [H|H]; try discriminate H;
        contradiction. }
  split.
  - intros sections Hread labs Hl. rewrite Hlabels in Hl. injection Hl as <-.
    destruct (duplicate_found w url (config_path args) request old sections Hread)
      as [Hsound Hcomplete].
    rewrite Hlab, Hcrit, Hdup. split.
    + intros [Hc Hd]. split; [exact Hc|]. now apply Hsound.
    + intros Hreadable [Hc Hr]. split; [exact Hc|]. now apply Hcomplete.
  - intros Hread labs Hl. rewrite Hlabels in Hl. injection Hl as <-.
    rewrite Hlab, Hdup. unfold check_duplicate_in_config.
    destruct (config_read w (config_path args)) as [sections| |msg];
      [now specialize (Hread sections)| |]; simpl; intros [_ H]; discriminate H.
Qed.

Lemma duplicate_label_iff_witness :
  In "duplicate-feed" (default [] (labels sample_result)).
Proof.
  change (In "duplicate-feed" ["duplicate-feed"]).
  destruct (proj1 (duplicate_label_iff sample_world
                     (sample_args issue_without_request_type)
                     "HTTP://Foo.com/Feed/" ltac:(vm_compute; reflexivity))
              sample_sections eq_refl ["duplicate-feed"]
              ltac:(vm_compute; reflexivity)) as [_ Hcomplete].
  apply Hcomplete.
  - intros section msg [H|[H|[]]]; discriminate H.
  - split; [split; [|split]|].
    + exists "https", "example.com". repeat split; [now right|discriminate].
    + exists "HTTP://Foo.com/Feed/". reflexivity.
    + exists three_entries_feed, "rss20", three_entries.
      repeat split; discriminate.
    + exists "http://foo.com/feed", (NameValue "Foo").
      split; [right; left; reflexivity|]. split; [discriminate|reflexivity].
Defined.

End PipelineVerdict.

(** ** From the result document to the label line and the report *)

Section Consumers.
Import ValidateFeed.

Lemma labels_of_listed validations : In (labels_of validations) label_lists.
Proof.
  unfold labels_of, determine_overall_status, label_lists.
  destruct (has_critical_failure validations); [simpl; auto|].
  destruct (get_field validations "duplicate" is_duplicate false);
    destruct (get_field validations "content" python_score 0 <? 30);
    destruct (get_field validations "content" python_score 0 <? 60);
    simpl; auto 6.
Qed.

Lemma main_result_labels w args :
  exists labs, labels (main_result w args) = Some labs /\ In labs label_lists.
Proof.
  destruct (parse_issue_body (issue_body args) !! "feed-url") as [url|] eqn:Hurl.
  - destruct (main_result_aggregate w args url Hurl) as (_ & _ & _ & Hl & _).
    eexists. split; [exact Hl|apply labels_of_listed].
  - exists ["validation-failed"]. split; [|simpl; auto].
    unfold main_result. now rewrite Hurl.
Qed.

(** X13: whatever the submission, [get_labels.py] run on the result that
    [validate_feed.py] wrote exits with status 0 and prints a line: the
    result always carries at least one label, and the line read back by
    splitting at the commas is the list of labels. *)
Theorem label_line_of_pipeline_result w args lw script path rest :
  GetLabels.read_json lw path = Loaded (main_result w args) ->
  exists labs line,
    labels (main_result w args) = Some labs
    /\ labs <> []
    /\ GetLabels.main lw (script :: path :: rest)
       = {| exit_code := 0; written := Some line |}
    /\ split "," line = labs.
Proof.
  intros Hread.
  destruct (main_result_labels w args) as (labs & Hlabs & Hin).
  exists labs, (join "," labs). split; [exact Hlabs|].
  assert (Hne : labs <> [] /\ split "," (join "," labs) = labs).
  { simpl in Hin.
    destruct Hin as [<-|[<-|[<-|[<-|[<-|[]]]]]];
      (split; [discriminate|vm_compute; reflexivity]). }
  destruct Hne as [Hne Hsplit]. split; [exact Hne|]. split; [|exact Hsplit].
  unfold GetLabels.main. rewrite Hread, Hlabs. simpl default.
  destruct labs; [contradiction|reflexivity].
Qed.

Lemma label_line_of_pipeline_result_witness :
  exists labs line,
    labels sample_result = Some labs
    /\ labs <> []
    /\ GetLabels.main sample_labels_world ["get_labels.py"; "result.json"]
       = {| exit_code := 0; written := Some line |}
    /\ split "," line = labs.
Proof.
  apply (label_line_of_pipeline_result sample_world
           (sample_args issue_without_request_type) sample_labels_world
           "get_labels.py" "result.json" []).
  reflexivity.
Defined.

Lemma check_line_present validations check format validation :
  validations !! check = Some validation ->
  FormatComment.check_line validations check format <> EmptyString.
Proof.
  intros H. unfold FormatComment.check_line. rewrite H.
  destruct (format validation); discriminate.
Qed.

(** X14: the report of a submission with a feed URL has a line for each
    of the five checks; the report of a submission without one has none
    (the entry recorded under 'parsing' is not rendered).  The five lines
    are the sixth to tenth pieces of the report. *)
Theorem report_check_lines w args :
  (parse_issue_body (issue_body args) !! "feed-url" = None ->
   Forall (fun line => line = EmptyString) (check_lines (main_result w args)))
  /\ (forall url,
        parse_issue_body (issue_body args) !! "feed-url" = Some url ->
        Forall (fun line => line <> EmptyString)
               (check_lines (main_result w args)))
  /\ exists before after,
       FormatComment.comment_chunks (main_result w args)
       = before ++ check_lines (main_result w args) ++ after
       /\ List.length before = 5%nat.
Proof.
  repeat split.
  - intros Hurl. unfold check_lines.
    destruct (main_result_without_url w args Hurl) as (-> & _).
    simpl default. unfold FormatComment.check_line.
    repeat (rewrite lookup_singleton_ne by discriminate).
    repeat constructor.
  - intros url Hurl. unfold check_lines.
    destruct (main_result_aggregate w args url Hurl) as (_ & -> & _).
    simpl default.
    destruct (run_validations_lookup w args url (request_of (issue_body args))
                (old_url_of (issue_body args))) as (Hu & Ha & Hs & Hd & Hc).
    repeat constructor; eapply check_line_present; eassumption.
  - unfold FormatComment.comment_chunks, check_lines.
    eexists [_; _; _; _; _], _. split; reflexivity.
Qed.

Lemma report_check_lines_witness :
  Forall (fun line => line = EmptyString)
         (check_lines (main_result sample_world (sample_args EmptyString)))
  /\ Forall (fun line => line <> EmptyString) (check_lines sample_result).
Proof.
  destruct (report_check_lines sample_world (sample_args EmptyString))
    as (Hnone & _ & _).
  destruct (report_check_lines sample_world
              (sample_args issue_without_request_type)) as (_ & Hall & _).
  split.
  - apply Hnone. reflexivity.
  - apply (Hall "HTTP://Foo.com/Feed/"). vm_compute. reflexivity.
Defined.

End Consumers.

(** ** Strings: case, whitespace, substrings *)

Section StringFacts.

Lemma lower_append a b : lower (a +:+ b) = lower a +:+ lower b.
Proof.
  induction a as [|c a IH]; [reflexivity|].
  rewrite ?append_cons. simpl. now rewrite IH, ?append_cons.
Qed.

Lemma lower_char_idem c : lower_char (lower_char c) = lower_char c.
Proof. destruct c as [[] [] [] [] [] [] [] []]; reflexivity. Qed.

Lemma lower_char_upper_char c : lower_char (upper_char c) = lower_char c.
Proof. destruct c as [[] [] [] [] [] [] [] []]; reflexivity. Qed.

Lemma lower_idem s : lower (lower s) = lower s.
Proof.
  induction s as [|c s IH]; [reflexivity|].
  simpl. now rewrite lower_char_idem, IH.
Qed.

Lemma lower_upper s : lower (upper s) = lower s.
Proof.
  induction s as [|c s IH]; [reflexivity|].
  simpl. now rewrite lower_char_upper_char, IH.
Qed.

Lemma blank_lower s : blank (lower s) = blank s.
Proof.
  induction s as [|c s IH]; [reflexivity|].
  simpl. now rewrite is_space_lower_char, IH.
Qed.

Lemma lstrip_blank s : blank s = true -> lstrip s = EmptyString.
Proof.
  induction s as [|c s IH]; [reflexivity|].
  simpl. intros [Hc Hs]%andb_prop. rewrite Hc. now apply IH.
Qed.

Lemma lstrip_blank_prefix a s : blank a = true -> lstrip (a +:+ s) = lstrip s.
Proof.
  induction a as [|c a IH]; [reflexivity|].
  simpl. intros [Hc Ha]%andb_prop. rewrite ?append_cons. simpl.
  rewrite Hc. now apply IH.
Qed.

Lemma rstrip_blank s : blank s = true -> rstrip s = EmptyString.
Proof.
  induction s as [|c s IH]; [reflexivity|].
  simpl. intros [Hc Hs]%andb_prop. now rewrite (IH Hs), Hc.
Qed.

Lemma rstrip_blank_suffix s b : blank b = true -> rstrip (s +:+ b) = rstrip s.
Proof.
  intros Hb. induction s as [|c s IH].
  - simpl. now apply rstrip_blank.
  - rewrite ?append_cons. simpl. now rewrite IH.
Qed.

(** Whitespace around a string does not survive [strip]. *)
Lemma strip_blank_around a s b :
  blank a = true -> blank b = true -> strip (a +:+ s +:+ b) = strip s.
Proof.
  intros Ha Hb. unfold strip. rewrite (lstrip_blank_prefix a _ Ha).
  induction s as [|c s IH].
  - change (EmptyString +:+ b) with b. now rewrite (lstrip_blank b Hb).
  - change (String c s +:+ b) with (String c (s +:+ b)). cbn [lstrip].
    destruct (is_space c); [exact IH|].
    change (String c (s +:+ b)) with (String c s +:+ b).
    now apply rstrip_blank_suffix.
Qed.

Lemma rstrip_cons_nonspace c s :
  is_space c = false -> exists r, rstrip (String c s) = String c r.
Proof.
  intros Hc. simpl. destruct (rstrip s); [rewrite Hc|]; eauto.
Qed.

Lemma rstrip_idem s : rstrip (rstrip s) = rstrip s.
Proof.
  induction s as [|c s IH]; [reflexivity|].
  simpl. destruct (rstrip s) as [|d r] eqn:E.
  - destruct (is_space c) eqn:Hc; [reflexivity|]. simpl. now rewrite Hc.
  - simpl in *. rewrite IH. reflexivity.
Qed.

Lemma lstrip_head s :
  lstrip s = EmptyString
  \/ exists c r, lstrip s = String c r /\ is_space c = false.
Proof.
  induction s as [|c s IH]; [now left|].
  simpl. destruct (is_space c) eqn:Hc; [exact IH|]. right. eauto.
Qed.

(** [strip] is idempotent. *)
Lemma strip_idem s : strip (strip s) = strip s.
Proof.
  unfold strip.
  destruct (lstrip_head s) as [->|(c & r & -> & Hc)]; [reflexivity|].
  destruct (rstrip_cons_nonspace c r Hc) as [r' Hr]. rewrite Hr.
  simpl lstrip. rewrite Hc. rewrite <- Hr. apply rstrip_idem.
Qed.

Lemma lstrip_length s : (String.length (lstrip s) <= String.length s)%nat.
Proof.
  induction s as [|c s IH]; [simpl; lia|].
  simpl. destruct (is_space c); simpl; lia.
Qed.

Lemma rstrip_length s : (String.length (rstrip s) <= String.length s)%nat.
Proof.
  induction s as [|c s IH]; [simpl; lia|].
  simpl. destruct (rstrip s); [destruct (is_space c)|]; simpl in *; lia.
Qed.

Lemma lstrip_same_length s :
  String.length (lstrip s) = String.length s -> lstrip s = s.
Proof.
  destruct s as [|c s]; [reflexivity|].
  simpl. destruct (is_space c); [|reflexivity].
  pose proof (lstrip_length s). simpl. lia.
Qed.

(** A stripped string has no whitespace on either side. *)
Lemma strip_fixed s : strip s = s -> lstrip s = s /\ rstrip s = s.
Proof.
  intros H. unfold strip in H.
  assert (Hl : lstrip s = s).
  { apply lstrip_same_length.
    pose proof (lstrip_length s). pose proof (rstrip_length (lstrip s)).
    rewrite H in H1. lia. }
  split; [exact Hl|]. now rewrite Hl in H.
Qed.

Lemma lstrip_snoc s c :
  is_space c = false ->
  lstrip (s +:+ String c EmptyString) = lstrip s +:+ String c EmptyString.
Proof.
  intros Hc. induction s as [|d s IH].
  - simpl. now rewrite Hc.
  - rewrite ?append_cons. simpl. destruct (is_space d); [exact IH|].
    now rewrite ?append_cons.
Qed.

Lemma rstrip_snoc s c :
  is_space c = false ->
  rstrip (s +:+ String c EmptyString) = s +:+ String c EmptyString.
Proof.
  intros Hc. induction s as [|d s IH].
  - simpl. now rewrite Hc.
  - rewrite ?append_cons. simpl. rewrite IH.
    destruct s; reflexivity.
Qed.

Lemma endswith_char_snoc s c :
  endswith_char c (s +:+ String c EmptyString) = true.
Proof.
  induction s as [|d s IH]; [simpl; apply Ascii.eqb_refl|].
  rewrite ?append_cons. simpl.
  destruct (s +:+ String c EmptyString) eqn:E; [|exact IH].
  destruct s; discriminate E.
Qed.

Lemma drop_last_snoc s c : drop_last (s +:+ String c EmptyString) = s.
Proof.
  induction s as [|d s IH]; [reflexivity|].
  rewrite ?append_cons. simpl.
  destruct (s +:+ String c EmptyString) eqn:E; [destruct s; discriminate E|].
  now rewrite IH.
Qed.

Lemma endswith_char_lower s : endswith_char "/" (lower s) = endswith_char "/" s.
Proof.
  induction s as [|c s IH]; [reflexivity|].
  simpl. destruct s as [|d s].
  - simpl. destruct c as [[] [] [] [] [] [] [] []]; reflexivity.
  - exact IH.
Qed.

End StringFacts.

(** ** Normalization and keyword matching *)

Section Insensitive.
Import ValidateFeed.

(** X15: on a URL of ASCII characters, [normalize_url] does not see
    letter case, whitespace around the URL, or one slash at the end of a
    URL that has no whitespace around it and no slash at its end
    already. *)
Theorem normalize_url_insensitive url :
  ascii_text url = true ->
  normalize_url (upper url) = normalize_url url
  /\ normalize_url (lower url) = normalize_url url
  /\ (forall before after,
        blank before = true -> blank after = true ->
        normalize_url (before +:+ url +:+ after) = normalize_url url)
  /\ (strip url = url -> endswith_char "/" url = false ->
      normalize_url (url +:+ "/") = normalize_url url).
Proof.
  intros _. unfold normalize_url. repeat split.
  - now rewrite lower_upper.
  - now rewrite lower_idem.
  - intros before after Hb Ha.
    rewrite !lower_append, strip_blank_around; [reflexivity| |];
      now rewrite blank_lower.
  - intros Hs Hend.
    assert (Hl : strip (lower url) = lower url) by now rewrite strip_lower, Hs.
    destruct (strip_fixed _ Hl) as [Hls _].
    rewrite lower_append, Hl, endswith_char_lower, Hend.
    change (lower "/") with (String "/" EmptyString).
    unfold strip. rewrite lstrip_snoc, Hls, rstrip_snoc by reflexivity.
    now rewrite endswith_char_snoc, drop_last_snoc.
Qed.

Lemma normalize_url_insensitive_witness :
  normalize_url (upper "HTTP://Foo.com/Feed") = normalize_url "HTTP://Foo.com/Feed"
  /\ normalize_url ("  " +:+ "HTTP://Foo.com/Feed" +:+ " ")
     = normalize_url "HTTP://Foo.com/Feed"
  /\ normalize_url ("HTTP://Foo.com/Feed" +:+ "/")
     = normalize_url "HTTP://Foo.com/Feed".
Proof.
  destruct (normalize_url_insensitive "HTTP://Foo.com/Feed" eq_refl)
    as (Hupper & _ & Hblank & Hslash).
  split; [exact Hupper|]. split.
  - apply Hblank; reflexivity.
  - apply Hslash; reflexivity.
Defined.

Lemma startswith_append p a b :
  startswith p a = true -> startswith p (a +:+ b) = true.
Proof.
  revert a. induction p as [|c p IH]; intros [|d a]; simpl;
    try reflexivity; try discriminate.
  intros [Hc Hp]%andb_prop. rewrite ?append_cons. simpl.
  now rewrite Hc, (IH a Hp).
Qed.

Lemma contains_append_l sub a b :
  contains sub a = true -> contains sub (a +:+ b) = true.
Proof.
  induction a as [|c a IH].
  - simpl. rewrite orb_false_r. intros H.
    destruct sub; [|discriminate H].
    destruct b; reflexivity.
  - intros H. change (String c a +:+ b) with (String c (a +:+ b)).
    cbn [contains] in *. apply orb_prop in H as [H|H].
    + change (String c (a +:+ b)) with (String c a +:+ b).
      now rewrite (startswith_append sub (String c a) b H).
    + rewrite (IH H). apply orb_true_r.
Qed.

Lemma contains_append_r sub a b :
  contains sub b = true -> contains sub (a +:+ b) = true.
Proof.
  intros H. induction a as [|c a IH]; [exact H|].
  change (String c a +:+ b) with (String c (a +:+ b)).
  cbn [contains]. rewrite IH. apply orb_true_r.
Qed.

(** X16: on titles and summaries of ASCII characters, keyword matching
    does not depend on letter case, and an entry matches as soon as its
    title or its summary contains one of the keywords, in any letter
    case. *)
Theorem has_python_insensitive title summary :
  ascii_text title = true -> ascii_text summary = true ->
  has_python (entry_of (upper title) (upper summary))
  = has_python (entry_of title summary)
  /\ (forall title' summary',
        ascii_text title' = true -> ascii_text summary' = true ->
        lower title' = lower title -> lower summary' = lower summary ->
        has_python (entry_of title' summary') = has_python (entry_of title summary))
  /\ (forall keyword,
        In keyword python_keywords ->
        contains keyword (lower title) = true
        \/ contains keyword (lower summary) = true ->
        has_python (entry_of title summary) = true).
Proof.
  intros _ _. unfold has_python, entry_of. simpl default. repeat split.
  - now rewrite !lower_append, !lower_upper.
  - intros title' summary' _ _ Ht Hs. now rewrite !lower_append, Ht, Hs.
  - intros keyword Hin Hc. apply existsb_exists. exists keyword.
    split; [exact Hin|]. rewrite !lower_append.
    destruct Hc as [Hc|Hc].
    + now apply contains_append_l.
    + apply contains_append_r. now apply contains_append_r.
Qed.

Lemma has_python_insensitive_witness :
  has_python (entry_of (upper "Release notes") (upper "NumPy 2.0 is out"))
  = has_python (entry_of "Release notes" "NumPy 2.0 is out")
  /\ has_python (entry_of "Release notes" "NumPy 2.0 is out") = true.
Proof.
  destruct (has_python_insensitive "Release notes" "NumPy 2.0 is out"
              eq_refl eq_refl) as (Hupper & _ & Hkeyword).
  split; [exact Hupper|].
  apply (Hkeyword "numpy").
  - simpl. auto 10.
  - right. reflexivity.
Defined.

End Insensitive.

(** ** What the field extractor returns *)

Section Extractor.
Import ValidateFeed.

Lemma field_of_header_listed header field :
  field_of_header header = Some field -> In field issue_fields.
Proof.
  unfold field_of_header, issue_fields.
  destruct (_ && _); [intros [= <-]; simpl; auto|].
  destruct (_ || _); [intros [= <-]; simpl; auto|].
  destruct (contains "request type" header); [intros [= <-]; simpl; auto|].
  destruct (_ && _); [intros [= <-]; simpl; auto 6|discriminate].
Qed.

(** What holds of every field of the mapping under construction. *)
Lemma parse_section_fields (P : string -> string -> Prop) data section :
  (forall header value,
     value <> "_No response_" -> value <> EmptyString -> strip value = value ->
     forall field, field_of_header header = Some field -> P field value) ->
  (forall field value, data !! field = Some value -> P field value) ->
  forall field value,
    parse_section data section !! field = Some value -> P field value.
Proof.
  intros Hnew Hdata. unfold parse_section.
  destruct (negb (truthy (strip section))); [exact Hdata|].
  destruct (split_once "010" (strip section)) as [|header0 [|value0 rest]];
    try exact Hdata.
  destruct (String.eqb_spec (strip value0) "_No response_") as [|Hno];
    [exact Hdata|].
  destruct (String.eqb_spec (strip value0) EmptyString) as [|Hne];
    [exact Hdata|]. simpl.
  destruct (field_of_header (lower (strip header0))) as [new|] eqn:Hf;
    [|exact Hdata].
  intros field value. rewrite lookup_insert.
  case_decide; [|apply Hdata].
  intros [= <-]. subst field.
  apply (Hnew (lower (strip header0))); auto using strip_idem.
Qed.

(** X17: every field extracted from an issue body is one of 'feed-url',
    'name', 'request-type' and 'old-url', and its value is never empty,
    never the placeholder '_No response_', and has no whitespace around
    it. *)
Theorem extracted_fields body field value :
  parse_issue_body body !! field = Some value ->
  In field issue_fields
  /\ value <> EmptyString
  /\ value <> "_No response_"
  /\ strip value = value.
Proof.
  unfold parse_issue_body. generalize (split (nl +:+ "### ") body).
  intros sections.
  assert (Hfold : forall data,
            (forall f v, data !! f = Some v ->
                         In f issue_fields /\ v <> EmptyString
                         /\ v <> "_No response_" /\ strip v = v) ->
            forall f v, fold_left parse_section sections data !! f = Some v ->
                        In f issue_fields /\ v <> EmptyString
                        /\ v <> "_No response_" /\ strip v = v).
  { induction sections as [|section rest IH]; intros data Hdata; [exact Hdata|].
    simpl. apply IH.
    apply (parse_section_fields
             (fun f v => In f issue_fields /\ v <> EmptyString
                         /\ v <> "_No response_" /\ strip v = v)).
    - intros header v Hno Hne Hs f Hf.
      split; [exact (field_of_header_listed _ _ Hf)|auto].
    - exact Hdata. }
  apply Hfold. intros f v. rewrite lookup_empty. discriminate.
Qed.

Lemma extracted_fields_witness :
  In "name" issue_fields
  /\ "Foo" <> EmptyString
  /\ "Foo" <> "_No response_"
  /\ strip "Foo" = "Foo".
Proof.
  apply (extracted_fields issue_without_request_type "name" "Foo").
  vm_compute. reflexivity.
Defined.

End Extractor.

(** ** The percent-encoding of the feed URL *)

Section Quote.
Import FormatComment.

Lemma hex_digit_value c :
  ascii_of_nat (16 * hex_value (hex_digit (nat_of_ascii c / 16))
                + hex_value (hex_digit (nat_of_ascii c mod 16))) = c.
Proof. destruct c as [[] [] [] [] [] [] [] []]; vm_compute; reflexivity. Qed.

Lemma hex_digit_encoded c :
  percent_encoded_char (hex_digit (nat_of_ascii c / 16)) = true
  /\ percent_encoded_char (hex_digit (nat_of_ascii c mod 16)) = true.
Proof. destruct c as [[] [] [] [] [] [] [] []]; vm_compute; auto. Qed.

Lemma unreserved_not_percent c : unreserved c = true -> c <> "%"%char.
Proof. intros H ->. vm_compute in H. discriminate H. Qed.

(** X18: the percent-encoding of a URL is made of letters, digits, '_',
    '.', '-', '~' and '%' only, whatever bytes the URL holds; it leaves a
    URL made of unreserved characters unchanged; and it loses nothing: two
    URLs with the same encoding are the same URL. *)
Theorem quote_safe_and_injective :
  (forall url, all_chars percent_encoded_char (quote url) = true)
  /\ (forall url, all_chars unreserved url = true -> quote url = url)
  /\ (forall url url', quote url = quote url' -> url = url').
Proof.
  repeat split.
  - induction url as [|c url IH]; [reflexivity|].
    cbn [quote]. destruct (unreserved c) eqn:Hc.
    + cbn [all_chars]. unfold percent_encoded_char at 1. now rewrite Hc, IH.
    + destruct (hex_digit_encoded c) as [H1 H2].
      cbv zeta. cbn [all_chars]. now rewrite H1, H2, IH.
  - induction url as [|c url IH]; [reflexivity|].
    cbn [quote all_chars]. intros [Hc Hu]%andb_prop. now rewrite Hc, (IH Hu).
  - induction url as [|c url IH]; intros [|d url']; cbn [quote]; cbv zeta.
    + reflexivity.
    + destruct (unreserved d); discriminate.
    + destruct (unreserved c); discriminate.
    + destruct (unreserved c) eqn:Hc; destruct (unreserved d) eqn:Hd.
      * intros [= -> H]. now rewrite (IH _ H).
      * intros [= -> _]. now apply unreserved_not_percent in Hc.
      * intros [= <- _]. now apply unreserved_not_percent in Hd.
      * intros Heq.
        assert (H1 : hex_digit (nat_of_ascii c / 16)
                     = hex_digit (nat_of_ascii d / 16)) by congruence.
        assert (H2 : hex_digit (nat_of_ascii c mod 16)
                     = hex_digit (nat_of_ascii d mod 16)) by congruence.
        assert (H : quote url = quote url') by congruence.
        rewrite (IH _ H). f_equal.
        rewrite <- (hex_digit_value c), <- (hex_digit_value d).
        now rewrite H1, H2.
Qed.

Lemma quote_safe_and_injective_witness :
  quote "feed.example.org" = "feed.example.org".
Proof.
  apply (proj1 (proj2 quote_safe_and_injective)). reflexivity.
Defined.

End Quote.

(** ** The content line of the report *)

Section ContentLine.
Import FormatComment.

Lemma fold_warnings_from warnings : forall line,
  exists tail,
    fold_left (fun acc warning => acc +:+ nl +:+ "   - ⚠️  " +:+ warning)
              warnings line
    = line +:+ tail.
Proof.
  induction warnings as [|warning warnings IH]; intros line.
  - exists EmptyString. simpl. now rewrite append_empty_r.
  - simpl. destruct (IH (line +:+ nl +:+ "   - ⚠️  " +:+ warning)) as [tail ->].
    eexists. now rewrite !append_assoc.
Qed.

Lemma format_content_validation_line validation :
  exists tail,
    format_content_validation validation =
    (if 60 <=? default 0 (python_score validation) then "✅" else "⚠️")
    +:+ tail.
Proof.
  unfold format_content_validation.
  set (score := default 0 (python_score validation)).
  assert (Hline : forall emoji status_text,
            exists tail,
              match default [] (warnings validation) with
              | [] => emoji +:+ " **Python Content:** " +:+ of_Z score
                      +:+ "% Python keywords detected (" +:+ status_text +:+ ")"
              | first :: _ =>
                  if negb (String.eqb first "Skipped (feed structure invalid)")
                  then fold_left
                         (fun acc warning => acc +:+ nl +:+ "   - ⚠️  " +:+ warning)
                         (firstn 2 (default [] (warnings validation)))
                         (emoji +:+ " **Python Content:** " +:+ of_Z score
                          +:+ "% Python keywords detected (" +:+ status_text +:+ ")")
                  else emoji +:+ " **Python Content:** " +:+ of_Z score
                       +:+ "% Python keywords detected (" +:+ status_text +:+ ")"
              end = emoji +:+ tail).
  { intros emoji status_text.
    destruct (default [] (warnings validation)) as [|first rest];
      [eexists; reflexivity|].
    destruct (negb _); [|eexists; reflexivity].
    destruct (fold_warnings_from (firstn 2 (first :: rest))
                (emoji +:+ " **Python Content:** " +:+ of_Z score
                 +:+ "% Python keywords detected (" +:+ status_text +:+ ")"))
      as [tail ->].
    eexists. now rewrite !append_assoc. }
  destruct (60 <=? score); [apply Hline|].
  destruct (30 <=? score); apply Hline.
Qed.

(** X19: the content line of the report opens with the check mark exactly
    when the content score is at least 60, the threshold below which the
    aggregator warns: for a mapping whose critical checks passed, the line
    opens with the check mark if and only if the overall status is
    'pass'. *)
Theorem content_line_agrees_with_status validations validation :
  validations !! "content" = Some validation ->
  (startswith "✅" (format_content_validation validation) = true <->
   60 <= score_of validations)
  /\ (critical_passed validations ->
      (startswith "✅" (format_content_validation validation) = true <->
       status_of validations = "pass")).
Proof.
  intros Hcontent.
  assert (Hscore : score_of validations = default 0 (python_score validation)).
  { unfold score_of, get_field. now rewrite Hcontent. }
  assert (Hglyph : startswith "✅" (format_content_validation validation) = true
                   <-> 60 <= score_of validations).
  { rewrite Hscore.
    destruct (format_content_validation_line validation) as [tail ->].
    destruct (Z.leb_spec 60 (default 0 (python_score validation))).
    - split; [intros _; assumption|]. intros _. reflexivity.
    - split; [|lia]. intros H'. vm_compute in H'. discriminate H'. }
  split; [exact Hglyph|].
  intros Hcrit. rewrite Hglyph.
  destruct (status_of_cases validations) as (_ & Hpass & _).
  rewrite Hpass. tauto.
Qed.

Lemma content_line_agrees_with_status_witness :
  startswith "✅"
    (format_content_validation
       {| passed := Some true; message := None; status_code := None;
          final_url := None; feed_type := None; entries := None;
          is_duplicate := Some true; existing_name := Some "Foo";
          python_score := Some 80; language := None; sample_titles := None;
          warnings := None |}) = true
  <-> status_of passing_duplicate = "pass".
Proof.
  apply (content_line_agrees_with_status passing_duplicate).
  - vm_compute. reflexivity.
  - intros check [<-|[<-|[<-|[]]]]; vm_compute; reflexivity.
Defined.

End ContentLine.

(** ** Further worked examples *)

Section MoreExamples.
Import ValidateFeed.

(** A title is cut after 100 code points, not 100 bytes. *)
Example take_counts_code_points :
  code_points long_title = 154%nat
  /\ code_points (take 100 long_title) = 100%nat
  /\ String.length (take 100 long_title) = 104%nat
  /\ take 2 "été" = "ét".
Proof. vm_compute. repeat split. Qed.

(** A matching section whose name does not interpolate: the lookup raises
    inside the [try] block and the check answers with the error message,
    for an addition and for an edit alike. *)
Example raising_name_lookup :
  let w := world_with_sections
             [("http://foo.com/feed",
               NameRaised "'%' must be followed by '%' or '('")] in
  check_duplicate_in_config w "http://foo.com/feed/" "config.ini" "Add new feed" None
  = (false, false, None,
     "Error reading config: '%' must be followed by '%' or '('")
  /\ check_duplicate_in_config w "http://foo.com/feed/" "config.ini"
       "Edit existing feed" (Some "http://old.example/feed")
     = (false, false, None,
        "Error reading config: '%' must be followed by '%' or '('").
Proof. split; reflexivity. Qed.

End MoreExamples.
